(** * ocpp.messages: the OCPP-J message envelope

    A shallow embedding of [ocpp/messages.py]: the three message classes
    [Call], [CallResult] and [CallError], the codec ([unpack], [pack]), the
    schema store ([get_schema]) and the payload validator
    ([validate_payload]), followed by the properties of the envelope layer.

    Python values are a first-order data type, exceptions are values of
    [exn], a call that may raise returns a [result], and the module-level
    dictionary [_schemas] is threaded through [get_schema] as explicit
    state.  The standard [json] module, [jsonschema.validate], the file
    system and [repr] are collaborators of the module: the functions reach
    them through the class [Runtime], and [PyJson] and [PyRepr] give a
    reference implementation of [json] and [repr], on which the module runs
    on concrete frames. *)

From Stdlib Require Import ZArith String Ascii List Bool Lia.
From Stdlib Require Import Floats.SpecFloat.
From Stdlib Require Import DecimalString DecimalFacts DecimalPos DecimalN.
From stdpp Require Import base option list gmap strings.

Set Warnings "-register-all".

Local Open Scope string_scope.
Local Open Scope Z_scope.

(** ** Python values *)

Module Py.

(** The values that reach this module: what [json.loads] produces ([None],
    [bool], [int], [float], [str], [list], [dict] with [str] keys, in
    insertion order) and instances of data classes, which [Call.__init__]
    flattens with [dataclasses.asdict].  A [float] is an IEEE 754 binary64
    number. *)
Inductive value : Type :=
| PyNone
| PyBool (b : bool)
| PyInt (n : Z)
| PyFloat (f : spec_float)
| PyStr (s : string)
| PyList (l : list value)
| PyDict (items : list (string * value))
| PyData (fields : list (string * value)).

(** The exceptions of [ocpp.exceptions] that derive from [OCPPError]. *)
Inductive OCPPErrorKind : Type :=
| NotImplementedError
| NotSupportedError
| InternalError
| ProtocolError
| SecurityError
| FormatViolationError
| PropertyConstraintViolationError
| OccurenceConstraintViolationError
| TypeConstraintViolationError
| GenericError.

(** An instance of a subclass of [OCPPError]: its class and the two
    attributes the module reads. *)
Record OCPPError : Type := {
  error_class : OCPPErrorKind;
  description : value;
  details : value
}.

(** Exceptions, by class.  The built-in ones and those of [json] and
    [jsonschema] keep their text where the module formats it into a message
    of its own. *)
Inductive exn : Type :=
| OCPP (e : OCPPError)
| ValidationError
| UnknownCallErrorCodeError (msg : string) (error_code : value)
| JSONDecodeError (msg : string)
| SchemaValidationError (msg : string)
| OSError (msg : string)
| TypeError
| ValueError
| IndexError.

(** A computation that returns a value or raises an exception. *)
Inductive result (A : Type) : Type :=
| Return (a : A)
| Raise (e : exn).

Arguments Return {A} a.
Arguments Raise {A} e.

(** Sequencing: an exception of the first computation is that of the
    whole. *)
Definition bind {A B : Type} (r : result A) (k : A -> result B) : result B :=
  match r with
  | Return a => k a
  | Raise e => Raise e
  end.

(** [f == n] for a float [f] and an int [n]: exact comparison of the two
    numbers. *)
Definition float_eq_int (f : spec_float) (n : Z) : bool :=
  match f with
  | S754_zero _ => n =? 0
  | S754_finite s m e =>
      let z := if s then Z.neg m else Z.pos m in
      if 0 <=? e then z * 2 ^ e =? n else z =? n * 2 ^ (- e)
  | _ => false
  end.

(** [v == n] for an int constant [n]: [bool] is a subclass of [int], and a
    float equals the int of the same value. *)
Definition eq_int (v : value) (n : Z) : bool :=
  match v with
  | PyInt m => m =? n
  | PyBool b => (if b then 1 else 0) =? n
  | PyFloat f => float_eq_int f n
  | _ => false
  end.

(** [type(v)] as an f-string prints it. *)
Definition type_name (v : value) : string :=
  match v with
  | PyNone => "<class 'NoneType'>"
  | PyBool _ => "<class 'bool'>"
  | PyInt _ => "<class 'int'>"
  | PyFloat _ => "<class 'float'>"
  | PyStr _ => "<class 'str'>"
  | PyList _ => "<class 'list'>"
  | PyDict _ => "<class 'dict'>"
  | PyData _ => "<class 'object'>"
  end.

(** [dataclasses.is_dataclass], on an instance. *)
Definition is_dataclass (v : value) : bool :=
  match v with
  | PyData _ => true
  | _ => false
  end.

(** [dataclasses.asdict]: instances of data classes become dictionaries of
    their fields, recursively and through lists and dictionaries. *)
Fixpoint asdict (v : value) : value :=
  match v with
  | PyList l => PyList (List.map asdict l)
  | PyDict items => PyDict (List.map (fun kv => (fst kv, asdict (snd kv))) items)
  | PyData fields => PyDict (List.map (fun kv => (fst kv, asdict (snd kv))) fields)
  | _ => v
  end.

End Py.
Export Py.

(** ** The collaborators of the module *)

(** What the module imports from outside the package: [json.loads] and
    [json.dumps], [repr], [jsonschema.validate], reading a text file
    ([open(path, 'r', encoding='utf-8-sig')] followed by [read]) and the
    directory of the module ([os.path.split(os.path.realpath(__file__))]). *)
Class Runtime : Type := {
  loads : string -> result value;
  dumps : value -> result string;
  repr : value -> string;
  validate : value -> value -> result unit;
  read_text : string -> result string;
  module_dir : string
}.

(** [format(v)], as an f-string inserts a value: a [str] stands for itself,
    any other value for its [repr]. *)
Definition format_value `{Runtime} (v : value) : string :=
  match v with
  | PyStr s => s
  | _ => repr v
  end.

(** [s == v] for a [str] constant [s]. *)
Definition eq_str (v : value) (s : string) : bool :=
  match v with
  | PyStr s' => String.eqb s' s
  | _ => false
  end.

(** [v += s] for a [str] constant [s], as the value the name is bound to
    after the statement: concatenation on a [str]; a [list] extended by the
    characters of [s]; other values raise [TypeError].  The list is
    extended in place: what becomes of the object itself is
    [iadd_str_in_place]. *)
Definition iadd_str (v : value) (s : string) : result value :=
  match v with
  | PyStr a => Return (PyStr (a +:+ s))
  | PyList l =>
      Return (PyList (l ++ List.map (fun c => PyStr (String c EmptyString))
                                    (list_ascii_of_string s)))
  | _ => Raise TypeError
  end.

(** The object [v] after [v += s]: a [list] is the same object, extended,
    and whoever holds it sees the longer list; a [str] is immutable (the
    name is bound to a new string), and a value on which [+=] raises is
    left as it is. *)
Definition iadd_str_in_place (v : value) (s : string) : value :=
  match v, iadd_str v s with
  | PyList _, Return v' => v'
  | _, _ => v
  end.

(** [posixpath.join] of two components. *)
Definition path_join (a b : string) : string :=
  if String.prefix "/" b then b
  else if (String.eqb a ""
           || String.eqb (String.substring (Nat.pred (String.length a)) 1 a) "/")%bool
       then a +:+ b
       else a +:+ "/" +:+ b.

(** ** ocpp.v16.enums and ocpp.exceptions *)

Module MessageType.
(** Modelled from the spec: [ocpp.v16.enums.MessageType] is not among the
    sources; its three members are the wire type ids of section 3. *)
Definition Call : Z := 2.
(** Modelled from the spec: the wire type id of a Response. *)
Definition CallResult : Z := 3.
(** Modelled from the spec: the wire type id of an ErrorResponse. *)
Definition CallError : Z := 4.
End MessageType.

(** Modelled from the spec: [ocpp.exceptions] is not among the sources; the
    class attribute [code] of each subclass of [OCPPError] is the error code
    of section 4.5. *)
Definition code (k : OCPPErrorKind) : string :=
  match k with
  | NotImplementedError => "NotImplemented"
  | NotSupportedError => "NotSupported"
  | InternalError => "InternalError"
  | ProtocolError => "ProtocolError"
  | SecurityError => "SecurityError"
  | FormatViolationError => "FormationViolation"
  | PropertyConstraintViolationError => "PropertyConstraintViolation"
  | OccurenceConstraintViolationError => "OccurenceConstraintViolation"
  | TypeConstraintViolationError => "TypeConstraintViolation"
  | GenericError => "GenericError"
  end.

(** Modelled from the spec: [OCPPError.__subclasses__()], the failure kinds
    of section 4.5 in the order the section lists them. *)
Definition OCPPError_subclasses : list OCPPErrorKind :=
  [NotImplementedError; NotSupportedError; InternalError; ProtocolError;
   SecurityError; FormatViolationError; PropertyConstraintViolationError;
   OccurenceConstraintViolationError; TypeConstraintViolationError;
   GenericError].

(** Modelled from the spec: the initialiser of [OCPPError], which is not
    among the sources.  A failure kind carries the [description] and
    [details] it is built from (section 4.5); an argument left out is
    [None]. *)
Definition new_OCPPError (k : OCPPErrorKind) (description details : option value)
  : OCPPError :=
  {| error_class := k;
     description := default PyNone description;
     details := default PyNone details |}.

(** ** The message classes *)

(** [CallError]: [[4, unique_id, error_code, error_description,
    error_details]] on the wire. *)
Module CallError.

Record t : Type := {
  unique_id : value;
  error_code : value;
  error_description : value;
  error_details : value
}.

Definition message_type_id : Z := 4.

Definition __init__ (unique_id error_code error_description : value)
    (error_details : option value) : t :=
  {| unique_id := unique_id;
     error_code := error_code;
     error_description := error_description;
     error_details := default PyNone error_details |}.

Definition to_json `{Runtime} (self : t) : result string :=
  dumps (PyList [PyInt message_type_id; unique_id self; error_code self;
                 error_description self; error_details self]).

(** The [for] loop of [to_exception] over the subclasses still to visit. *)
Fixpoint to_exception_from (subclasses : list OCPPErrorKind) (self : t)
  : result OCPPError :=
  match subclasses with
  | error :: rest =>
      if eq_str (error_code self) (code error)
      then Return (new_OCPPError error (Some (error_description self))
                                 (Some (error_details self)))
      else to_exception_from rest self
  | [] =>
      Raise (UnknownCallErrorCodeError
               "Error code '%s' is not defined by the OCPP specification"
               (error_code self))
  end.

Definition to_exception (self : t) : result OCPPError :=
  to_exception_from OCPPError_subclasses self.

Definition __repr__ `{Runtime} (self : t) : string :=
  "<CallError - unique_id=" +:+ format_value (unique_id self)
  +:+ ", error_code=" +:+ format_value (error_code self)
  +:+ ", error_description=" +:+ format_value (error_description self)
  +:+ ", error_details=" +:+ format_value (error_details self) +:+ ">".

End CallError.

(** [CallResult]: [[3, unique_id, payload]] on the wire; the action is kept
    in memory only, for the validation. *)
Module CallResult.

Record t : Type := {
  unique_id : value;
  payload : value;
  action : value
}.

Definition message_type_id : Z := 3.

Definition __init__ (unique_id payload : value) (action : option value) : t :=
  {| unique_id := unique_id;
     payload := payload;
     action := default PyNone action |}.

Definition to_json `{Runtime} (self : t) : result string :=
  dumps (PyList [PyInt message_type_id; unique_id self; payload self]).

Definition __repr__ `{Runtime} (self : t) : string :=
  "<CallResult - unique_id=" +:+ format_value (unique_id self)
  +:+ ", action=" +:+ format_value (action self)
  +:+ ", payload=" +:+ format_value (payload self) +:+ ">".

End CallResult.

(** [Call]: [[2, unique_id, action, payload]] on the wire. *)
Module Call.

Record t : Type := {
  unique_id : value;
  action : value;
  payload : value
}.

Definition message_type_id : Z := 2.

Definition __init__ (unique_id action payload : value) : t :=
  {| unique_id := unique_id;
     action := action;
     payload := if is_dataclass payload then asdict payload else payload |}.

Definition to_json `{Runtime} (self : t) : result string :=
  dumps (PyList [PyInt message_type_id; unique_id self; action self;
                 payload self]).

Definition create_call_result (self : t) (payload : value) : CallResult.t :=
  let call_result := CallResult.__init__ (unique_id self) payload None in
  {| CallResult.unique_id := CallResult.unique_id call_result;
     CallResult.payload := CallResult.payload call_result;
     CallResult.action := action self |}.

Definition create_call_error (self : t) (exception : exn) : CallError.t :=
  let error_code := PyStr "InternalError" in
  let error_description := PyStr "An unexpected error occured." in
  let error_details := PyDict [] in
  match exception with
  | OCPP e =>
      CallError.__init__ (unique_id self) (PyStr (code (error_class e)))
                         (description e) (Some (details e))
  | _ =>
      CallError.__init__ (unique_id self) error_code error_description
                         (Some error_details)
  end.

Definition __repr__ `{Runtime} (self : t) : string :=
  "<Call - unique_id=" +:+ format_value (unique_id self)
  +:+ ", action=" +:+ format_value (action self)
  +:+ ", payload=" +:+ format_value (payload self) +:+ ">".

End Call.

(** A message: an instance of one of the three classes. *)
Inductive message : Type :=
| ACall (m : Call.t)
| ACallResult (m : CallResult.t)
| ACallError (m : CallError.t).

(** The three classes, as [unpack] tries them. *)
Inductive message_class : Type := Call_ | CallResult_ | CallError_.

(** [cls.message_type_id]. *)
Definition message_type_id (cls : message_class) : Z :=
  match cls with
  | Call_ => Call.message_type_id
  | CallResult_ => CallResult.message_type_id
  | CallError_ => CallError.message_type_id
  end.

(** [cls( *args )]: the arguments are bound to the parameters of
    [cls.__init__] by position; too few or too many raise [TypeError]. *)
Definition new (cls : message_class) (args : list value) : result message :=
  match cls, args with
  | Call_, [unique_id; action; payload] =>
      Return (ACall (Call.__init__ unique_id action payload))
  | CallResult_, [unique_id; payload] =>
      Return (ACallResult (CallResult.__init__ unique_id payload None))
  | CallResult_, [unique_id; payload; action] =>
      Return (ACallResult (CallResult.__init__ unique_id payload (Some action)))
  | CallError_, [unique_id; error_code; error_description] =>
      Return (ACallError (CallError.__init__ unique_id error_code
                                             error_description None))
  | CallError_, [unique_id; error_code; error_description; error_details] =>
      Return (ACallError (CallError.__init__ unique_id error_code
                                             error_description
                                             (Some error_details)))
  | _, _ => Raise TypeError
  end.

(** [raise cls(msg)] for a subclass [cls] of [OCPPError]: the message is the
    description. *)
Definition raise_OCPPError {A : Type} (k : OCPPErrorKind) (msg : string)
  : result A :=
  Raise (OCPP (new_OCPPError k (Some (PyStr msg)) None)).

(** ** The codec *)

Section Codec.
Context `{Runtime}.

(** The [for] loop of [unpack] over the classes still to try, and the
    [raise] that follows it. *)
Fixpoint unpack_from (classes : list message_class) (msg : list value)
  : result message :=
  match classes with
  | cls :: rest =>
      match msg with
      | [] => raise_OCPPError ProtocolError "Message doesn't contain MessageTypeID"
      | msg0 :: args =>
          if eq_int msg0 (message_type_id cls)
          then match new cls args with
               | Raise IndexError =>
                   raise_OCPPError ProtocolError
                                   "Message doesn't contain MessageTypeID"
               | r => r
               end
          else unpack_from rest msg
      end
  | [] =>
      match msg with
      | [] => Raise IndexError
      | msg0 :: _ =>
          raise_OCPPError PropertyConstraintViolationError
            ("MessageTypeId '" +:+ format_value msg0 +:+ "' isn't valid")
      end
  end.

(** [unpack]. *)
Definition unpack (msg : string) : result message :=
  match loads msg with
  | Raise (JSONDecodeError e) =>
      raise_OCPPError FormatViolationError ("Message is not valid JSON: " +:+ e)
  | Raise e => Raise e
  | Return (PyList msg) => unpack_from [Call_; CallResult_; CallError_] msg
  | Return msg =>
      raise_OCPPError ProtocolError
        ("OCPP message hasn't the correct format. It should be a list, but got "
         +:+ type_name msg +:+ " instead")
  end.

(** [pack]: the [to_json] of the message. *)
Definition pack (msg : message) : result string :=
  match msg with
  | ACall m => Call.to_json m
  | ACallResult m => CallResult.to_json m
  | ACallError m => CallError.to_json m
  end.

End Codec.

(** ** The schema store and the payload validator *)

(** The state of the module: the dictionary [_schemas], from relative path
    to schema document, and a log of the paths given to [open], which tells
    a load from a cache hit. *)
Record store : Type := {
  _schemas : gmap string value;
  opened : list string
}.

(** The store when the module is imported. *)
Definition empty_store : store := {| _schemas := ∅; opened := [] |}.

(** The directory of a protocol version (lines 59-64 of [get_schema]). *)
Definition schemas_dir (ocpp_version : string) : result string :=
  if String.eqb ocpp_version "1.6" then Return "v16"
  else if String.eqb ocpp_version "2.0" then Return "v20"
  else Raise ValueError.

(** The name of the schema (lines 66-74 of [get_schema]). *)
Definition schema_name (message_type_id action : value) (ocpp_version : string)
  : result value :=
  bind (if eq_int message_type_id MessageType.CallResult
        then iadd_str action "Response"
        else if eq_int message_type_id MessageType.Call
             then if String.eqb ocpp_version "2.0"
                  then iadd_str action "Request"
                  else Return action
             else Return action)
       (fun schema_name =>
          if String.eqb ocpp_version "2.0"
          then iadd_str schema_name "_v1p0"
          else Return schema_name).

(** The object passed for [action] when [get_schema] is done with it.  Line
    66 binds [schema_name] to that object, and each [+=] that is reached
    (lines 68, 71 and 74) extends it in place when it is a list; with a
    version that is not supported the function raises before. *)
Definition action_after (message_type_id action : value) (ocpp_version : string)
  : value :=
  match schemas_dir ocpp_version with
  | Raise _ => action
  | Return _ =>
      let action :=
        if eq_int message_type_id MessageType.CallResult
        then iadd_str_in_place action "Response"
        else if eq_int message_type_id MessageType.Call
             then if String.eqb ocpp_version "2.0"
                  then iadd_str_in_place action "Request"
                  else action
             else action in
      if String.eqb ocpp_version "2.0"
      then iadd_str_in_place action "_v1p0"
      else action
  end.

Section Schemas.
Context `{Runtime}.

(** The key of the cache, which is also the path of the file below the
    directory of the module (line 77). *)
Definition relative_path (schemas_dir : string) (schema_name : value) : string :=
  schemas_dir +:+ "/schemas/" +:+ format_value schema_name +:+ ".json".

(** [get_schema]: the schema and the store after the call. *)
Definition get_schema (message_type_id action : value) (ocpp_version : string)
    (st : store) : result value * store :=
  match schemas_dir ocpp_version with
  | Raise e => (Raise e, st)
  | Return schemas_dir =>
      match schema_name message_type_id action ocpp_version with
      | Raise e => (Raise e, st)
      | Return schema_name =>
          let relative_path := relative_path schemas_dir schema_name in
          let path := path_join module_dir relative_path in
          match _schemas st !! relative_path with
          | Some schema => (Return schema, st)
          | None =>
              let st' := {| _schemas := _schemas st;
                            opened := opened st ++ [path] |} in
              match read_text path with
              | Raise e => (Raise e, st')
              | Return data =>
                  match loads data with
                  | Raise e => (Raise e, st')
                  | Return schema =>
                      (Return schema,
                       {| _schemas := <[relative_path := schema]> (_schemas st);
                          opened := opened st' |})
                  end
              end
          end
      end
  end.

(** [validate_payload]: what the call returns or raises, and the store
    after it; the text of a [ValidationError] is left out.  The test on the
    two special actions has an empty body.  The call can change the
    message it is given: what becomes of it is [message_after]. *)
Definition validate_payload (message : message) (ocpp_version : string)
    (st : store) : result unit * store :=
  let check (message_type_id : Z) (action payload : value) :=
    match get_schema (PyInt message_type_id) action ocpp_version st with
    | (Raise (OSError _), st') | (Raise (JSONDecodeError _), st') =>
        (Raise ValidationError, st')
    | (Raise e, st') => (Raise e, st')
    | (Return schema, st') =>
        match validate payload schema with
        | Raise (SchemaValidationError _) => (Raise ValidationError, st')
        | r => (r, st')
        end
    end in
  match message with
  | ACall m =>
      check Call.message_type_id (Call.action m) (Call.payload m)
  | ACallResult m =>
      check CallResult.message_type_id (CallResult.action m)
            (CallResult.payload m)
  | ACallError _ => (Raise ValidationError, st)
  end.

End Schemas.

(** The message after a call of [validate_payload]: [get_schema] is given
    the object [message.action] and leaves it as [action_after] says; a
    [CallError] is refused before.  The fields of the message are taken to
    be separate objects, as they are in a message that [unpack] has
    built. *)
Definition message_after : message -> string -> message :=
  fun message ocpp_version =>
  match message with
  | ACall m =>
      ACall {| Call.unique_id := Call.unique_id m;
               Call.action := action_after (PyInt Call.message_type_id)
                                           (Call.action m) ocpp_version;
               Call.payload := Call.payload m |}
  | ACallResult m =>
      ACallResult
        {| CallResult.unique_id := CallResult.unique_id m;
           CallResult.payload := CallResult.payload m;
           CallResult.action := action_after (PyInt CallResult.message_type_id)
                                             (CallResult.action m) ocpp_version |}
  | ACallError _ => message
  end.

(** ** A reference implementation of the [json] module

    [dumps] follows [json.dumps] with its default arguments and [loads]
    follows [json.loads] (the scanner and decoder of the standard library).
    The reference leaves three things of CPython out.  Its texts are over
    the characters 0 to 255: an escape [\uXXXX] above 255, which Python
    decodes to a character this model of [str] does not have, is refused
    here.  It has no limits of the interpreter: an [int] of any length is
    read and written, where CPython 3.11 raises [ValueError] beyond 4300
    digits, and arrays and objects are read at any depth, where CPython
    raises [RecursionError] beyond the recursion limit.  So the reference
    raises nothing but [JSONDecodeError]; the properties of the module
    that depend on what [json.loads] raises are stated for any [Runtime],
    with that as a hypothesis.  The position that ends the text of a
    [JSONDecodeError] is left out. *)

Module PyJson.

(** The double quote. *)
Definition dquote : ascii := Ascii false true false false false true false false.

(** The code of [c] lies between [lo] and [hi]. *)
Definition ascii_in (lo hi : N) (c : ascii) : bool :=
  ((lo <=? N_of_ascii c) && (N_of_ascii c <=? hi))%N.

(** *** Numbers *)

(** [str] of an [int]. *)
Definition string_of_Z (z : Z) : string :=
  match z with
  | Z0 => "0"
  | Zpos p => NilEmpty.string_of_uint (Pos.to_uint p)
  | Zneg p => String "-" (NilEmpty.string_of_uint (Pos.to_uint p))
  end.

(** The decimal digit [c] stands for. *)
Definition digit_of_char (c : ascii) : option (Decimal.uint -> Decimal.uint) :=
  match c with
  | "0" => Some Decimal.D0
  | "1" => Some Decimal.D1
  | "2" => Some Decimal.D2
  | "3" => Some Decimal.D3
  | "4" => Some Decimal.D4
  | "5" => Some Decimal.D5
  | "6" => Some Decimal.D6
  | "7" => Some Decimal.D7
  | "8" => Some Decimal.D8
  | "9" => Some Decimal.D9
  | _ => None
  end%char.

(** The longest prefix of digits, and what follows it. *)
Fixpoint scan_digits (s : string) : Decimal.uint * string :=
  match s with
  | String c rest =>
      match digit_of_char c with
      | Some d => let (u, r) := scan_digits rest in (d u, r)
      | None => (Decimal.Nil, s)
      end
  | EmptyString => (Decimal.Nil, s)
  end.

(** The integer part of a number: [0|[1-9][0-9]*]. *)
Definition scan_integer (s : string) : option (Decimal.uint * string) :=
  match s with
  | String "0" rest => Some (Decimal.D0 Decimal.Nil, rest)
  | String c _ =>
      match digit_of_char c with
      | Some _ => Some (scan_digits s)
      | None => None
      end
  | EmptyString => None
  end.

(** [float] of a decimal numeral [m * 10 ^ e10] with sign [neg]: the
    nearest binary64 number, ties to even. *)
Definition float_of_decimal (neg : bool) (m : N) (e10 : Z) : spec_float :=
  match m with
  | N0 => S754_zero neg
  | Npos p =>
      let digits := Z.of_nat (Decimal.nb_digits (Pos.to_uint p)) in
      if 310 <=? digits + e10 then S754_infinity neg
      else if digits + e10 <=? -325 then S754_zero neg
      else if 0 <=? e10 then binary_round 53 1024 neg (Z.to_pos (Zpos p * 10 ^ e10)) 0
      else let '(q, e, l) :=
             SFdiv_core_binary 53 1024 (Zpos p) 0 (10 ^ (- e10)) 0 in
           binary_round_aux 53 1024 neg q e l
  end.

(** The positive number [n / d], scaled by [10 ^ s]. *)
Definition scale10 (n d s : Z) : Z * Z :=
  if 0 <=? s then (n * 10 ^ s, d) else (n, d * 10 ^ (- s)).

(** The largest [k], from [k] upwards, with [10 ^ k <= n / d]. *)
Fixpoint log10_from (fuel : nat) (n d k : Z) : Z :=
  match fuel with
  | O => k
  | S fuel =>
      let '(n', d') := scale10 n d (- (k + 1)) in
      if d' <=? n' then log10_from fuel n d (k + 1) else k
  end.

(** The numerals [c * 10 ^ (k - p + 1)], for [c] the integer nearest to the
    scaled number and its two neighbours, that read back as [f]: the
    closest to [n / d], and of two that are as close the one whose last
    digit is even. *)
Definition candidates (f : spec_float) (n d k p : Z) : list (Z * Z) :=
  let '(n', d') := scale10 n d (p - 1 - k) in
  let q := n' / d' in
  let err c := Z.abs (c * d' - n') in
  let ok c :=
    (0 <? c) &&
    match float_of_decimal false (Z.to_N c) (k - p + 1), f with
    | S754_finite _ m e, S754_finite _ m' e' => (Pos.eqb m m' && (e =? e'))%bool
    | _, _ => false
    end in
  let best (a b : Z) :=
    if err b <? err a then b
    else if (err b =? err a) && Z.even b then b
    else a in
  match List.filter ok [q; q + 1; q - 1] with
  | [] => []
  | c :: cs => [(List.fold_left best cs c, k - p + 1)]
  end.

(** The first numeral, from [p] digits upwards, that reads back as [f]; 17
    digits always do. *)
Fixpoint shortest (fuel : nat) (f : spec_float) (n d k p : Z) : Z * Z :=
  match fuel with
  | O => let '(n', d') := scale10 n d (p - 1 - k) in (n' / d', k - p + 1)
  | S fuel =>
      match candidates f n d k p with
      | c :: _ => c
      | [] => shortest fuel f n d k (p + 1)
      end
  end.

(** The numeral without its trailing zeros. *)
Fixpoint strip_zeros (fuel : nat) (c e : Z) : Z * Z :=
  match fuel with
  | O => (c, e)
  | S fuel => if (c mod 10 =? 0) && negb (c =? 0)
              then strip_zeros fuel (c / 10) (e + 1) else (c, e)
  end.

(** [n] zeros. *)
Definition zeros (n : Z) : string :=
  string_of_list_ascii (List.repeat "0"%char (Z.to_nat n)).

(** [repr] of a float: the shortest decimal numeral that [float] reads back
    as the same number, the closest one to it among those of that length,
    printed in fixed notation when its decimal point falls within 16
    digits after and 4 digits before the first digit. *)
Definition float_repr (f : spec_float) : string :=
  match f with
  | S754_nan => "nan"
  | S754_infinity s => if s then "-inf" else "inf"
  | S754_zero s => if s then "-0.0" else "0.0"
  | S754_finite s m e =>
      let '(n, d) := if 0 <=? e then (Zpos m * 2 ^ e, 1) else (Zpos m, 2 ^ (- e)) in
      let k0 := (Z.log2 (Zpos m) + e) * 30103 / 100000 - 1 in
      let k := log10_from 4 n d k0 in
      let '(c, e10) := shortest 17 f n d k 1 in
      let '(c, e10) := strip_zeros 17 c e10 in
      let digits := string_of_Z c in
      let ndigits := Z.of_nat (String.length digits) in
      let decpt := ndigits + e10 in
      let body :=
        if (-4 <? decpt) && (decpt <=? 16) then
          if decpt <=? 0 then "0." +:+ zeros (- decpt) +:+ digits
          else if ndigits <=? decpt then digits +:+ zeros (decpt - ndigits) +:+ ".0"
          else String.substring 0 (Z.to_nat decpt) digits +:+ "." +:+
               String.substring (Z.to_nat decpt) (Z.to_nat (ndigits - decpt)) digits
        else
          let x := decpt - 1 in
          String.substring 0 1 digits +:+
          (if 1 <? ndigits
           then "." +:+ String.substring 1 (Z.to_nat (ndigits - 1)) digits
           else "") +:+
          "e" +:+ (if x <? 0 then "-" else "+") +:+
          (if Z.abs x <? 10 then "0" else "") +:+ string_of_Z (Z.abs x) in
      if s then String "-" body else body
  end.

(** *** Strings *)

(** The hexadecimal digit of [n], in lower case. *)
Definition hex_digit (n : N) : ascii :=
  if (n <? 10)%N then ascii_of_N (48 + n) else ascii_of_N (87 + n).

(** [py_encode_basestring_ascii], one character at a time. *)
Definition escape_char (c : ascii) : string :=
  if Ascii.eqb c dquote then String "\" (String dquote "")
  else if Ascii.eqb c "\" then "\\"
  else if Ascii.eqb c "010" then "\n"
  else if Ascii.eqb c "013" then "\r"
  else if Ascii.eqb c "009" then "\t"
  else if Ascii.eqb c "012" then "\f"
  else if Ascii.eqb c "008" then "\b"
  else if ascii_in 32 126 c then String c ""
  else "\u00" +:+ String (hex_digit (N_of_ascii c / 16))
                    (String (hex_digit (N_of_ascii c mod 16)) "").

(** The escapes of the characters of [s]. *)
Fixpoint escape (s : string) : string :=
  match s with
  | EmptyString => EmptyString
  | String c rest => escape_char c +:+ escape rest
  end.

(** [py_encode_basestring_ascii]. *)
Definition encode_basestring_ascii (s : string) : string :=
  String dquote (escape s +:+ String dquote "").

(** The value of a hexadecimal digit, in either case. *)
Definition hex_value (c : ascii) : option N :=
  if ascii_in 48 57 c then Some (N_of_ascii c - 48)%N
  else if ascii_in 97 102 c then Some (N_of_ascii c - 87)%N
  else if ascii_in 65 70 c then Some (N_of_ascii c - 55)%N
  else None.

(** The number four hexadecimal digits write. *)
Definition hex4 (a b c d : ascii) : option N :=
  match hex_value a, hex_value b, hex_value c, hex_value d with
  | Some x, Some y, Some z, Some w => Some (((x * 16 + y) * 16 + z) * 16 + w)%N
  | _, _, _, _ => None
  end.

(** The character a backslash and [c] stand for ([BACKSLASH] in
    [json.decoder]). *)
Definition unescape (c : ascii) : option ascii :=
  if Ascii.eqb c dquote then Some dquote
  else if Ascii.eqb c "\" then Some "\"%char
  else if Ascii.eqb c "/" then Some "/"%char
  else if Ascii.eqb c "b" then Some "008"%char
  else if Ascii.eqb c "f" then Some "012"%char
  else if Ascii.eqb c "n" then Some "010"%char
  else if Ascii.eqb c "r" then Some "013"%char
  else if Ascii.eqb c "t" then Some "009"%char
  else None.

(** [scanstring] (strict), from the character after the opening quote: the
    decoded string and the text after the closing quote. *)
Fixpoint scanstring (s : string) : result (string * string) :=
  match s with
  | EmptyString => Raise (JSONDecodeError "Unterminated string starting at")
  | String c rest =>
      if Ascii.eqb c dquote then Return (EmptyString, rest)
      else if Ascii.eqb c "\" then
        match rest with
        | String "u" (String h1 (String h2 (String h3 (String h4 rest')))) =>
            match hex4 h1 h2 h3 h4 with
            | Some n =>
                if (n <? 256)%N
                then bind (scanstring rest')
                          (fun r => Return (String (ascii_of_N n) (fst r), snd r))
                else Raise (JSONDecodeError "\uXXXX escape above 255")
            | None => Raise (JSONDecodeError "Invalid \uXXXX escape")
            end
        | String e rest' =>
            match unescape e with
            | Some c' =>
                bind (scanstring rest')
                     (fun r => Return (String c' (fst r), snd r))
            | None =>
                Raise (JSONDecodeError
                         (if Ascii.eqb e "u" then "Invalid \uXXXX escape"
                          else "Invalid \escape"))
            end
        | EmptyString => Raise (JSONDecodeError "Unterminated string starting at")
        end
      else if ascii_in 0 31 c
      then Raise (JSONDecodeError "Invalid control character at")
      else bind (scanstring rest)
                (fun r => Return (String c (fst r), snd r))
  end.

(** *** Values *)

(** [WHITESPACE]: space, tab, line feed and carriage return. *)
Definition is_whitespace (c : ascii) : bool :=
  (Ascii.eqb c " " || Ascii.eqb c "009" || Ascii.eqb c "010" || Ascii.eqb c "013")%bool.

(** The text after its leading white space. *)
Fixpoint skip_whitespace (s : string) : string :=
  match s with
  | String c rest => if is_whitespace c then skip_whitespace rest else s
  | EmptyString => s
  end.

(** The integer a sign and a decimal numeral write. *)
Definition Z_of_numeral (neg : bool) (u : Decimal.uint) : Z :=
  if neg then - Z.of_N (N.of_uint u) else Z.of_N (N.of_uint u).

(** The groups of [NUMBER_RE] after the integer part: a fraction
    [\.[0-9]+] and an exponent [[eE][-+]?[0-9]+], each taken only when it
    is complete. *)
Definition scan_fraction (s : string) : option Decimal.uint * string :=
  match s with
  | String "." r =>
      match scan_digits r with
      | (Decimal.Nil, _) => (None, s)
      | (d, r') => (Some d, r')
      end
  | _ => (None, s)
  end.

Definition scan_exponent (s : string) : option Z * string :=
  match s with
  | String e r =>
      if (Ascii.eqb e "e" || Ascii.eqb e "E")%bool then
        let '(eneg, r1) := match r with
                           | String "-" r1 => (true, r1)
                           | String "+" r1 => (false, r1)
                           | _ => (false, r)
                           end in
        match scan_digits r1 with
        | (Decimal.Nil, _) => (None, s)
        | (d, r') => (Some (Z_of_numeral eneg d), r')
        end
      else (None, s)
  | EmptyString => (None, s)
  end.

(** A numeral after its sign: an [int] when it has neither fraction nor
    exponent, a [float] otherwise. *)
Definition scan_number (neg : bool) (s : string) : option (value * string) :=
  match scan_integer s with
  | None => None
  | Some (int_part, s2) =>
      let '(frac, s3) := scan_fraction s2 in
      let '(exp, s4) := scan_exponent s3 in
      match frac, exp with
      | None, None => Some (PyInt (Z_of_numeral neg int_part), s4)
      | _, _ =>
          let digits := Decimal.app int_part (default Decimal.Nil frac) in
          let e10 := default 0 exp
                     - Z.of_nat (Decimal.nb_digits (default Decimal.Nil frac)) in
          Some (PyFloat (float_of_decimal neg (N.of_uint digits) e10), s4)
      end
  end.

(** [NUMBER_RE] and the conversion of its groups. *)
Definition match_number (s : string) : option (value * string) :=
  match s with
  | String "-" r => scan_number true r
  | _ => scan_number false s
  end.

(** [dict(pairs)]: a key that comes again keeps its place and takes the
    later value. *)
Fixpoint dict_set (d : list (string * value)) (k : string) (v : value)
  : list (string * value) :=
  match d with
  | [] => [(k, v)]
  | (k', v') :: d' =>
      if String.eqb k' k then (k', v) :: d' else (k', v') :: dict_set d' k v
  end.

(** The dictionary of a list of pairs. *)
Definition dict_of_pairs (pairs : list (string * value)) : list (string * value) :=
  List.fold_left (fun d kv => dict_set d (fst kv) (snd kv)) pairs [].

(** What follows the prefix [p] of [s], when [s] starts with [p]. *)
Fixpoint strip_prefix (p s : string) : option string :=
  match p with
  | EmptyString => Some s
  | String a p' =>
      match s with
      | String b s' => if Ascii.eqb a b then strip_prefix p' s' else None
      | EmptyString => None
      end
  end.

(** The failure of [scan_once] on a text that starts no value. *)
Definition expecting_value {A : Type} : result A :=
  Raise (JSONDecodeError "Expecting value").

(** [scan_once], [JSONArray] and [JSONObject].  The recursion of the
    decoder is bounded by [fuel] (in Python, by the recursion limit of the
    interpreter); [loads] gives it the length of the text. *)
Fixpoint scan_once (fuel : nat) (s : string) {struct fuel}
  : result (value * string) :=
  match fuel with
  | O => expecting_value
  | S fuel =>
      match s with
      | EmptyString => expecting_value
      | String c rest =>
          if Ascii.eqb c dquote then
            bind (scanstring rest) (fun r => Return (PyStr (fst r), snd r))
          else if Ascii.eqb c "{" then
            match skip_whitespace rest with
            | String "}" rest' => Return (PyDict [], rest')
            | rest' =>
                bind (scan_pairs fuel rest')
                     (fun r => Return (PyDict (dict_of_pairs (fst r)), snd r))
            end
          else if Ascii.eqb c "[" then
            match skip_whitespace rest with
            | String "]" rest' => Return (PyList [], rest')
            | rest' =>
                bind (scan_items fuel rest')
                     (fun r => Return (PyList (fst r), snd r))
            end
          else
            match strip_prefix "null" s with
            | Some rest' => Return (PyNone, rest')
            | None =>
            match strip_prefix "true" s with
            | Some rest' => Return (PyBool true, rest')
            | None =>
            match strip_prefix "false" s with
            | Some rest' => Return (PyBool false, rest')
            | None =>
            match match_number s with
            | Some r => Return r
            | None =>
            match strip_prefix "NaN" s with
            | Some rest' => Return (PyFloat S754_nan, rest')
            | None =>
            match strip_prefix "Infinity" s with
            | Some rest' => Return (PyFloat (S754_infinity false), rest')
            | None =>
            match strip_prefix "-Infinity" s with
            | Some rest' => Return (PyFloat (S754_infinity true), rest')
            | None => expecting_value
            end end end end end end end
      end
  end

(** The items of an array, from the first character of an item to the
    closing bracket. *)
with scan_items (fuel : nat) (s : string) {struct fuel}
  : result (list value * string) :=
  match fuel with
  | O => expecting_value
  | S fuel =>
      bind (scan_once fuel s)
           (fun r =>
              match skip_whitespace (snd r) with
              | String "]" rest => Return ([fst r], rest)
              | String "," rest =>
                  bind (scan_items fuel (skip_whitespace rest))
                       (fun r' => Return (fst r :: fst r', snd r'))
              | _ => Raise (JSONDecodeError "Expecting ',' delimiter")
              end)
  end

(** The pairs of an object, from the opening quote of a key to the closing
    brace. *)
with scan_pairs (fuel : nat) (s : string) {struct fuel}
  : result (list (string * value) * string) :=
  match fuel with
  | O => expecting_value
  | S fuel =>
      match s with
      | String c rest =>
          if Ascii.eqb c dquote then
            bind (scanstring rest)
                 (fun k =>
                    match skip_whitespace (snd k) with
                    | String ":" rest1 =>
                        bind (scan_once fuel (skip_whitespace rest1))
                             (fun r =>
                                match skip_whitespace (snd r) with
                                | String "}" rest2 => Return ([(fst k, fst r)], rest2)
                                | String "," rest2 =>
                                    bind (scan_pairs fuel (skip_whitespace rest2))
                                         (fun r' => Return ((fst k, fst r) :: fst r', snd r'))
                                | _ => Raise (JSONDecodeError "Expecting ',' delimiter")
                                end)
                    | _ => Raise (JSONDecodeError "Expecting ':' delimiter")
                    end)
          else Raise (JSONDecodeError
                        "Expecting property name enclosed in double quotes")
      | EmptyString =>
          Raise (JSONDecodeError
                   "Expecting property name enclosed in double quotes")
      end
  end.

(** [json.loads]: a value between white space, and nothing more. *)
Definition loads (s : string) : result value :=
  bind (scan_once (S (String.length s)) (skip_whitespace s))
       (fun r =>
          match skip_whitespace (snd r) with
          | EmptyString => Return (fst r)
          | _ => Raise (JSONDecodeError "Extra data")
          end).

(** The texts of the members after the first, each after [", "], and the
    closing bracket. *)
Fixpoint encode_rest {A : Type} (enc : A -> result string) (close : string)
    (l : list A) : result string :=
  match l with
  | [] => Return close
  | x :: l' =>
      bind (enc x) (fun s =>
      bind (encode_rest enc close l') (fun t => Return (", " +:+ s +:+ t)))
  end.

(** A key, [": "] and the text of the value. *)
Definition encode_pair (enc : value -> result string) (kv : string * value)
  : result string :=
  bind (enc (snd kv)) (fun s =>
  Return (encode_basestring_ascii (fst kv) +:+ ": " +:+ s)).

(** [json.dumps]: the separators are [", "] and [": "], every character
    outside the printable ASCII range is escaped, and an instance of a data
    class is not serializable. *)
Fixpoint encode (v : value) : result string :=
  match v with
  | PyNone => Return "null"
  | PyBool b => Return (if b then "true" else "false")
  | PyInt n => Return (string_of_Z n)
  | PyFloat f =>
      Return (match f with
              | S754_nan => "NaN"
              | S754_infinity s => if s then "-Infinity" else "Infinity"
              | _ => float_repr f
              end)
  | PyStr s => Return (encode_basestring_ascii s)
  | PyList [] => Return "[]"
  | PyList (v0 :: l) =>
      bind (encode v0) (fun s0 =>
      bind (encode_rest encode "]" l) (fun t =>
      Return (String "[" (s0 +:+ t))))
  | PyDict [] => Return "{}"
  | PyDict (kv0 :: d) =>
      bind (encode_pair encode kv0) (fun s0 =>
      bind (encode_rest (encode_pair encode) "}" d) (fun t =>
      Return (String "{" (s0 +:+ t))))
  | PyData _ => Raise TypeError
  end.

(** [json.dumps]. *)
Definition dumps (v : value) : result string := encode v.

End PyJson.

(** ** A reference implementation of [repr] *)

Module PyRepr.

(** [str.isprintable], on the characters 0 to 255. *)
Definition printable (c : ascii) : bool :=
  (PyJson.ascii_in 32 126 c
   || (PyJson.ascii_in 161 255 c && negb (Ascii.eqb c "173")))%bool.

(** [c in s]. *)
Fixpoint contains (c : ascii) (s : string) : bool :=
  match s with
  | EmptyString => false
  | String c' rest => (Ascii.eqb c c' || contains c rest)%bool
  end.

(** A character between the quotes [q]. *)
Definition repr_char (q c : ascii) : string :=
  if Ascii.eqb c "\" then "\\"
  else if Ascii.eqb c q then String "\" (String q "")
  else if Ascii.eqb c "009" then "\t"
  else if Ascii.eqb c "010" then "\n"
  else if Ascii.eqb c "013" then "\r"
  else if printable c then String c ""
  else "\x" +:+ String (PyJson.hex_digit (N_of_ascii c / 16))
                  (String (PyJson.hex_digit (N_of_ascii c mod 16)) "").

(** [repr] of a [str]: between single quotes, or between double quotes when
    it holds a single quote and no double quote. *)
Definition repr_str (s : string) : string :=
  let q := if (contains "'" s && negb (contains PyJson.dquote s))%bool
           then PyJson.dquote else "'"%char in
  String q ((fix go (s : string) : string :=
               match s with
               | EmptyString => String q ""
               | String c rest => repr_char q c +:+ go rest
               end) s).

(** [sep.join(l)]. *)
Definition join (sep : string) (l : list string) : string :=
  match l with
  | [] => ""
  | s :: l' => List.fold_left (fun acc t => acc +:+ sep +:+ t) l' s
  end.

(** [repr] of a value; an instance of a data class is printed the way the
    [__repr__] that [dataclass] generates prints it, with [object] for the
    name of its class, which the model does not keep. *)
Fixpoint repr (v : value) : string :=
  match v with
  | PyNone => "None"
  | PyBool b => if b then "True" else "False"
  | PyInt n => PyJson.string_of_Z n
  | PyFloat f => PyJson.float_repr f
  | PyStr s => repr_str s
  | PyList l => "[" +:+ join ", " (List.map repr l) +:+ "]"
  | PyDict d =>
      "{" +:+ join ", " (List.map (fun kv => repr_str (fst kv) +:+ ": "
                                              +:+ repr (snd kv)) d)
          +:+ "}"
  | PyData fields =>
      "object(" +:+ join ", " (List.map (fun kv => fst kv +:+ "="
                                                    +:+ repr (snd kv)) fields)
                +:+ ")"
  end.

End PyRepr.

(** ** A runtime to run the module on concrete inputs

    The reference [json] and [repr], a file system given by the list of its
    text files, and for [jsonschema.validate] a validator that accepts every
    payload. *)

(** Reading the file at [path]: a missing file raises [OSError]. *)
Fixpoint read_file (files : list (string * string)) (path : string)
  : result string :=
  match files with
  | [] => Raise (OSError ("[Errno 2] No such file or directory: "
                          +:+ PyRepr.repr_str path))
  | (p, text) :: files' =>
      if String.eqb p path then Return text else read_file files' path
  end.

(** The runtime over the files [files]. *)
Definition reference_runtime (files : list (string * string)) : Runtime := {|
  loads := PyJson.loads;
  dumps := PyJson.dumps;
  repr := PyRepr.repr;
  validate := fun _ _ => Return tt;
  read_text := read_file files;
  module_dir := "/site-packages/ocpp"
|}.

(** [s] between double quotes, to write the text of a frame. *)
Definition quoted (s : string) : string :=
  String PyJson.dquote (s +:+ String PyJson.dquote "").

(** The class [unpack] builds for the discriminator [msg0]: the first of
    [Call], [CallResult], [CallError] whose type id equals it. *)
Definition class_of (msg0 : value) : option message_class :=
  List.find (fun cls => eq_int msg0 (message_type_id cls))
            [Call_; CallResult_; CallError_].

Definition is_OCPPError (exception : exn) : bool :=
  match exception with
  | OCPP _ => true
  | _ => false
  end.

(** The class of an exception that is one of the three framing failures of
    [unpack]. *)
Definition framing_failure (e : exn) : bool :=
  match e with
  | OCPP e =>
      match error_class e with
      | FormatViolationError | ProtocolError | PropertyConstraintViolationError => true
      | _ => false
      end
  | _ => false
  end.

Definition supported (ocpp_version : string) : bool :=
  (String.eqb ocpp_version "1.6" || String.eqb ocpp_version "2.0")%bool.

(** The numbers of arguments [cls.__init__] accepts besides [self]. *)
Definition arity_ok (cls : message_class) (n : nat) : bool :=
  match cls with
  | Call_ => Nat.eqb n 3
  | CallResult_ => (Nat.eqb n 2 || Nat.eqb n 3)%bool
  | CallError_ => (Nat.eqb n 3 || Nat.eqb n 4)%bool
  end.

(** The store after a sequence of calls of [get_schema], given by their
    arguments. *)
Fixpoint after_calls `{Runtime} (calls : list (value * value * string))
    (st : store) : store :=
  match calls with
  | [] => st
  | (message_type_id, action, ocpp_version) :: calls' =>
      after_calls calls' (snd (get_schema message_type_id action ocpp_version st))
  end.

(** ** Values that [json] writes and reads back *)

(** The keys of a dictionary are pairwise distinct, as they are in a
    [dict]. *)
Fixpoint unique_keys (keys : list string) : bool :=
  match keys with
  | [] => true
  | k :: keys' => (negb (existsb (String.eqb k) keys') && unique_keys keys')%bool
  end.

(** Two floats are the same number, written the same way. *)
Definition spec_float_eqb (f f' : spec_float) : bool :=
  match f, f' with
  | S754_zero s, S754_zero s' => Bool.eqb s s'
  | S754_infinity s, S754_infinity s' => Bool.eqb s s'
  | S754_nan, S754_nan => true
  | S754_finite s m e, S754_finite s' m' e' =>
      (Bool.eqb s s' && Pos.eqb m m' && (e =? e'))%bool
  | _, _ => false
  end.

(** A float JSON has a numeral for: the numeral [repr] writes for [f] is a
    JSON number, and [float] reads it as [f].  [repr] writes the shortest
    numeral that reads back, and 17 digits are enough for a binary64
    number, so that the finite floats of Python pass the test; "nan",
    "inf" and "-inf" are no JSON numbers and fail it.  The test runs the
    printer and the reader on [f], which keeps what follows independent of
    that fact of floating-point arithmetic. *)
Definition float_reads_back (f : spec_float) : bool :=
  match PyJson.match_number (PyJson.float_repr f) with
  | Some (PyFloat f', EmptyString) => spec_float_eqb f' f
  | _ => false
  end.

(** The values [json.dumps] writes so that [json.loads] reads them back:
    [None], [bool], [int] and [str] values, the floats JSON has a numeral
    for, and lists and dictionaries of such values.  An instance of a data
    class is not serializable. *)
Fixpoint representable (v : value) : bool :=
  match v with
  | PyNone | PyBool _ | PyInt _ | PyStr _ => true
  | PyFloat f => float_reads_back f
  | PyData _ => false
  | PyList l => forallb representable l
  | PyDict items =>
      (unique_keys (List.map fst items)
       && forallb (fun kv => representable (snd kv)) items)%bool
  end.

(** Fuel that pays for reading [v] back: one unit for the value, and for
    each member of a list or dictionary one unit and the fuel of the
    member. *)
Fixpoint fuel_of (v : value) : nat :=
  match v with
  | PyList l => S (List.fold_right (fun x n => S (fuel_of x + n))%nat O l)
  | PyDict items =>
      S (List.fold_right (fun kv n => S (fuel_of (snd kv) + n))%nat O items)
  | _ => 1%nat
  end.

Definition items_fuel (l : list value) : nat :=
  List.fold_right (fun x n => S (fuel_of x + n))%nat O l.

Definition pairs_fuel (d : list (string * value)) : nat :=
  List.fold_right (fun kv n => S (fuel_of (snd kv) + n))%nat O d.

(** What may follow the text of a value: the end of the text, a comma or a
    closing bracket. *)
Definition follows (rest : string) : bool :=
  match rest with
  | EmptyString => true
  | String c _ => (Ascii.eqb c "," || Ascii.eqb c "]" || Ascii.eqb c "}")%bool
  end.

(** The first character of the text of a value is neither white space nor
    a closing bracket. *)
Definition starts_value (s : string) : bool :=
  match s with
  | EmptyString => false
  | String c _ => negb (PyJson.is_whitespace c || Ascii.eqb c "]" || Ascii.eqb c "}")
  end.

Definition starts_with_digit (s : string) : bool :=
  match s with
  | String c _ =>
      match PyJson.digit_of_char c with
      | Some _ => true
      | None => false
      end
  | EmptyString => false
  end.

(** The first character of a numeral: a digit or the minus sign. *)
Definition number_start (c : ascii) : bool :=
  (Ascii.eqb c "-"
   || match PyJson.digit_of_char c with
      | Some _ => true
      | None => false
      end)%bool.

(** [text] is the text of [v]: it starts a value, is long enough to pay for
    the fuel, and is read back as [v] in front of anything that may follow a
    value. *)
Definition reads_back (v : value) (text : string) : Prop :=
  starts_value text = true
  /\ (fuel_of v <= String.length text)%nat
  /\ forall (fuel : nat) (rest : string),
       (fuel_of v <= fuel)%nat -> follows rest = true ->
       PyJson.scan_once fuel (text +:+ rest) = Return (v, rest).

(** [json.dumps] writes [v], when it is representable, as a text that is
    read back as [v]. *)
Definition encodes (v : value) : Prop :=
  representable v = true ->
  exists text, PyJson.encode v = Return text /\ reads_back v text.

(** [r] returns, or raises a [JSONDecodeError]. *)
Definition decode_error {A : Type} (r : result A) : Prop :=
  match r with
  | Return _ => True
  | Raise (JSONDecodeError _) => True
  | Raise _ => False
  end.

(** ** Predicates of the further properties *)

(** No instance of a data class in [v], at any depth. *)
Fixpoint no_dataclass (v : value) : bool :=
  match v with
  | PyData _ => false
  | PyList l => forallb no_dataclass l
  | PyDict items => forallb (fun kv => no_dataclass (snd kv)) items
  | _ => true
  end.

(** The class of a message. *)
Definition class_of_message (m : message) : message_class :=
  match m with
  | ACall _ => Call_
  | ACallResult _ => CallResult_
  | ACallError _ => CallError_
  end.

(** The action of a message that has one: [validate_payload] reads it from
    a [Call] and from a [CallResult]. *)
Definition action_of (m : message) : option value :=
  match m with
  | ACall m => Some (Call.action m)
  | ACallResult m => Some (CallResult.action m)
  | ACallError _ => None
  end.

(** The fields of a message that [to_json] writes after the type id. *)
Definition wire_fields (m : message) : list value :=
  match m with
  | ACall m => [Call.unique_id m; Call.action m; Call.payload m]
  | ACallResult m => [CallResult.unique_id m; CallResult.payload m]
  | ACallError m =>
      [CallError.unique_id m; CallError.error_code m;
       CallError.error_description m; CallError.error_details m]
  end.

(** [repr(m)]: the [__repr__] of the class of the message. *)
Definition repr_of_message `{Runtime} (m : message) : string :=
  match m with
  | ACall m => Call.__repr__ m
  | ACallResult m => CallResult.__repr__ m
  | ACallError m => CallError.__repr__ m
  end.

(** What a computation returns, when it returns, satisfies [P]. *)
Definition returns {A : Type} (P : A -> Prop) (r : result A) : Prop :=
  match r with
  | Return a => P a
  | Raise _ => True
  end.

(** Every document of the cache is what [json.loads] makes of the file of
    its key. *)
Definition coherent `{Runtime} (st : store) : Prop :=
  forall (key : string) (schema : value),
    _schemas st !! key = Some schema ->
    exists data,
      read_text (path_join module_dir key) = Return data
      /\ loads data = Return schema.

(** * Properties *)

(** ** The message model *)

(** C8. [create_call_result] returns a [CallResult] with the [unique_id] and
    the [action] of the [Call] and with the payload it is given; the
    BootNotification request of the specification, answered with status
    Accepted, yields unique_id "19223201" and action "BootNotification". *)
Theorem create_call_result_copies_id_and_action :
  (forall (self : Call.t) (payload : value),
      Call.create_call_result self payload
      = {| CallResult.unique_id := Call.unique_id self;
           CallResult.payload := payload;
           CallResult.action := Call.action self |})
  /\ (forall request_payload : value,
         let call_result :=
           Call.create_call_result
             (Call.__init__ (PyStr "19223201") (PyStr "BootNotification")
                            request_payload)
             (PyDict [("status", PyStr "Accepted")]) in
         CallResult.unique_id call_result = PyStr "19223201"
         /\ CallResult.action call_result = PyStr "BootNotification").
Proof.
  split.
  - intros [uid act pl] payload. reflexivity.
  - intros request_payload. split; reflexivity.
Qed.

(** C4 (the code departs from the claim in the generic description).
    [create_call_error] keeps the [unique_id] of the [Call]; for an
    [OCPPError] it carries the code, description and details of the
    exception; for any other exception it carries "InternalError", empty
    details, and the description "An unexpected error occured.", which is
    not the "An unexpected error occurred." of the specification. *)
Theorem create_call_error_fields :
  forall (self : Call.t) (exception : exn),
    CallError.unique_id (Call.create_call_error self exception)
    = Call.unique_id self
    /\ (forall e : OCPPError,
           exception = OCPP e ->
           Call.create_call_error self exception
           = {| CallError.unique_id := Call.unique_id self;
                CallError.error_code := PyStr (code (error_class e));
                CallError.error_description := description e;
                CallError.error_details := details e |})
    /\ (is_OCPPError exception = false ->
        Call.create_call_error self exception
        = {| CallError.unique_id := Call.unique_id self;
             CallError.error_code := PyStr "InternalError";
             CallError.error_description := PyStr "An unexpected error occured.";
             CallError.error_details := PyDict [] |}
        /\ CallError.error_description (Call.create_call_error self exception)
           <> PyStr "An unexpected error occurred.").
Proof.
  intros self exception. split; [|split].
  - destruct exception; reflexivity.
  - intros e ->. reflexivity.
  - intros Hno. destruct exception; try discriminate Hno;
      (split; [reflexivity | discriminate]).
Qed.

(** ** The error taxonomy *)

Lemma eq_str_true (v : value) (s : string) :
  eq_str v s = true <-> v = PyStr s.
Proof.
  destruct v; simpl; try (split; [discriminate | intros [=]]).
  rewrite String.eqb_eq. split; [intros -> | intros [= ->]]; reflexivity.
Qed.

(** The loop of [to_exception] stops at the first class whose code equals
    the error code. *)
Lemma to_exception_from_find (subclasses : list OCPPErrorKind) (self : CallError.t) :
  CallError.to_exception_from subclasses self
  = match List.find (fun error => eq_str (CallError.error_code self) (code error))
                    subclasses with
    | Some error =>
        Return (new_OCPPError error (Some (CallError.error_description self))
                              (Some (CallError.error_details self)))
    | None =>
        Raise (UnknownCallErrorCodeError
                 "Error code '%s' is not defined by the OCPP specification"
                 (CallError.error_code self))
    end.
Proof.
  induction subclasses as [|error rest IH]; simpl; [reflexivity|].
  destruct (eq_str _ (code error)); [reflexivity | exact IH].
Qed.

Lemma code_inj (k k' : OCPPErrorKind) : code k = code k' -> k = k'.
Proof. destruct k, k'; simpl; intros [=]; reflexivity. Qed.

(** C5. [to_exception] returns the failure kind registered for the error
    code, built from the description and the details of the [CallError],
    when the code is one of the vocabulary (so for "NotImplemented"), and
    raises [UnknownCallErrorCodeError] exactly when it is none of them (so
    for "TotallyMadeUp"). *)
Theorem to_exception_registered_or_unknown :
  forall self : CallError.t,
    (forall k : OCPPErrorKind,
        CallError.error_code self = PyStr (code k) ->
        CallError.to_exception self
        = Return (new_OCPPError k (Some (CallError.error_description self))
                                (Some (CallError.error_details self)))
        /\ new_OCPPError k (Some (CallError.error_description self))
                         (Some (CallError.error_details self))
           = {| error_class := k;
                description := CallError.error_description self;
                details := CallError.error_details self |})
    /\ ((forall k : OCPPErrorKind, CallError.error_code self <> PyStr (code k))
        <-> CallError.to_exception self
            = Raise (UnknownCallErrorCodeError
                       "Error code '%s' is not defined by the OCPP specification"
                       (CallError.error_code self)))
    /\ (CallError.error_code self = PyStr "NotImplemented" ->
        exists e, CallError.to_exception self = Return e
                  /\ error_class e = NotImplementedError)
    /\ (CallError.error_code self = PyStr "TotallyMadeUp" ->
        exists msg, CallError.to_exception self
                    = Raise (UnknownCallErrorCodeError msg (PyStr "TotallyMadeUp"))).
Proof.
  intros self.
  assert (Hknown : forall k : OCPPErrorKind,
             CallError.error_code self = PyStr (code k) ->
             CallError.to_exception self
             = Return (new_OCPPError k (Some (CallError.error_description self))
                                     (Some (CallError.error_details self)))).
  { intros k Hk. unfold CallError.to_exception.
    rewrite to_exception_from_find, Hk. destruct k; reflexivity. }
  split; [intros k Hk; split; [exact (Hknown k Hk) | reflexivity]|].
  split; [|split].
  - unfold CallError.to_exception. rewrite to_exception_from_find. split.
    + intros Hnone.
      destruct (List.find _ OCPPError_subclasses) as [k|] eqn:Hfind; [|reflexivity].
      apply List.find_some in Hfind as [_ Hk]. apply eq_str_true in Hk.
      destruct (Hnone k Hk).
    + intros Hraise k Hk. rewrite Hk in Hraise.
      destruct k; discriminate Hraise.
  - intros Hcode. eexists. split.
    + apply (Hknown NotImplementedError). exact Hcode.
    + reflexivity.
  - intros Hcode. eexists. unfold CallError.to_exception.
    rewrite to_exception_from_find, Hcode. reflexivity.
Qed.

(** ** The schema store *)

Section SchemaStore.
Context `{Runtime}.

(** C7. The name of the schema: under "1.6" the action itself for a [Call]
    and the action followed by "Response" for a [CallResult]; under "2.0"
    the action followed by "Request", respectively "Response", and then by
    "_v1p0".  [get_schema] looks the schema up under that name, in the
    directory of the version. *)
Theorem schema_name_suffixes :
  forall (action : string) (schema : value) (schemas : gmap string value)
         (log : list string),
    let cached ocpp_version name :=
      {| _schemas := <[ocpp_version +:+ "/schemas/" +:+ name +:+ ".json" := schema]>
                       schemas;
         opened := log |} in
    let hit message_type_id ocpp_version dir name :=
      get_schema (PyInt message_type_id) (PyStr action) ocpp_version
                 (cached dir name)
      = (Return schema, cached dir name) in
    schema_name (PyInt MessageType.Call) (PyStr action) "1.6"
    = Return (PyStr action)
    /\ schema_name (PyInt MessageType.CallResult) (PyStr action) "1.6"
       = Return (PyStr (action +:+ "Response"))
    /\ schema_name (PyInt MessageType.Call) (PyStr action) "2.0"
       = Return (PyStr ((action +:+ "Request") +:+ "_v1p0"))
    /\ schema_name (PyInt MessageType.CallResult) (PyStr action) "2.0"
       = Return (PyStr ((action +:+ "Response") +:+ "_v1p0"))
    /\ hit MessageType.Call "1.6" "v16" action
    /\ hit MessageType.CallResult "1.6" "v16" (action +:+ "Response")
    /\ hit MessageType.Call "2.0" "v20" ((action +:+ "Request") +:+ "_v1p0")
    /\ hit MessageType.CallResult "2.0" "v20" ((action +:+ "Response") +:+ "_v1p0").
Proof.
  intros action schema schemas log cached hit. subst hit cached.
  repeat split; try reflexivity;
    unfold get_schema, relative_path; cbn [schemas_dir schema_name String.eqb
      Ascii.eqb Bool.eqb eq_int Z.eqb Pos.eqb MessageType.Call
      MessageType.CallResult bind iadd_str format_value _schemas];
    rewrite lookup_insert_eq; reflexivity.
Qed.

End SchemaStore.

(** ** The codec *)

Lemma new_arity (cls : message_class) (args : list value) :
  arity_ok cls (List.length args) = false <-> new cls args = Raise TypeError.
Proof.
  destruct cls; destruct args as [|a0 [|a1 [|a2 [|a3 [|a4 args]]]]];
    simpl; split; (reflexivity || discriminate).
Qed.

Lemma new_returns_or_TypeError (cls : message_class) (args : list value) :
  (exists m, new cls args = Return m) \/ new cls args = Raise TypeError.
Proof.
  destruct cls; destruct args as [|a0 [|a1 [|a2 [|a3 [|a4 args]]]]];
    simpl; eauto.
Qed.

Section CodecFacts.
Context `{Runtime}.

(** What the loop of [unpack] does on a frame with a discriminator. *)
Lemma unpack_from_class (msg0 : value) (args : list value) :
  unpack_from [Call_; CallResult_; CallError_] (msg0 :: args)
  = match class_of msg0 with
    | Some cls => new cls args
    | None =>
        raise_OCPPError PropertyConstraintViolationError
          ("MessageTypeId '" +:+ format_value msg0 +:+ "' isn't valid")
    end.
Proof.
  unfold class_of. cbn [List.find unpack_from].
  destruct (eq_int msg0 (message_type_id Call_)).
  { destruct (new_returns_or_TypeError Call_ args) as [[m ->] | ->]; reflexivity. }
  destruct (eq_int msg0 (message_type_id CallResult_)).
  { destruct (new_returns_or_TypeError CallResult_ args) as [[m ->] | ->]; reflexivity. }
  destruct (eq_int msg0 (message_type_id CallError_)).
  { destruct (new_returns_or_TypeError CallError_ args) as [[m ->] | ->]; reflexivity. }
  reflexivity.
Qed.

(** C2. The framing failures of [unpack], by what [json.loads] makes of the
    text: a [JSONDecodeError] becomes a [FormatViolationError]; a value that
    is not a list, and the empty list, raise [ProtocolError]; a first
    element equal to none of 2, 3 and 4 raises
    [PropertyConstraintViolationError], with a message that shows it. *)
Theorem unpack_framing_failures :
  forall text : string,
    match loads text with
    | Raise (JSONDecodeError e) =>
        unpack text
        = raise_OCPPError FormatViolationError ("Message is not valid JSON: " +:+ e)
    | Raise e => unpack text = Raise e
    | Return (PyList []) =>
        unpack text
        = raise_OCPPError ProtocolError "Message doesn't contain MessageTypeID"
    | Return (PyList (msg0 :: _)) =>
        if (eq_int msg0 2 || eq_int msg0 3 || eq_int msg0 4)%bool then True
        else unpack text
             = raise_OCPPError PropertyConstraintViolationError
                 ("MessageTypeId '" +:+ format_value msg0 +:+ "' isn't valid")
    | Return msg =>
        unpack text
        = raise_OCPPError ProtocolError
            ("OCPP message hasn't the correct format. It should be a list, but got "
             +:+ type_name msg +:+ " instead")
    end.
Proof.
  intros text. unfold unpack.
  destruct (loads text) as [msg | e].
  - destruct msg as [| | | | |msg| |]; try reflexivity.
    destruct msg as [|msg0 args]; [reflexivity|].
    rewrite unpack_from_class. unfold class_of. simpl.
    change Call.message_type_id with 2.
    change CallResult.message_type_id with 3.
    change CallError.message_type_id with 4.
    destruct (eq_int msg0 2); [exact I|].
    destruct (eq_int msg0 3); [exact I|].
    destruct (eq_int msg0 4); [exact I|]. reflexivity.
  - destruct e; reflexivity.
Qed.

(** When the first element of the frame selects a class and the number of
    the elements that follow is not one its initialiser accepts, [unpack]
    raises [TypeError], which is none of the three framing failures: the
    [try] around the call of the class catches [IndexError] only. *)
Lemma unpack_wrong_length_raises_TypeError :
  forall (text : string) (msg0 : value) (args : list value) (cls : message_class),
    loads text = Return (PyList (msg0 :: args)) ->
    class_of msg0 = Some cls ->
    arity_ok cls (List.length args) = false ->
    unpack text = Raise TypeError /\ framing_failure TypeError = false.
Proof.
  intros text msg0 args cls Hloads Hcls Harity. split; [|reflexivity].
  unfold unpack. rewrite Hloads, unpack_from_class, Hcls.
  apply new_arity. exact Harity.
Qed.

(** [unpack] returns a message, raises one of the three framing failures,
    or raises [TypeError] on a frame of the wrong length, as long as
    [json.loads] raises nothing but [JSONDecodeError]. *)
Lemma unpack_outcomes (text : string) :
  (forall e, loads text = Raise e -> exists msg, e = JSONDecodeError msg) ->
  (exists m, unpack text = Return m)
  \/ (exists e, unpack text = Raise e /\ framing_failure e = true)
  \/ (unpack text = Raise TypeError
      /\ exists msg0 args cls,
           loads text = Return (PyList (msg0 :: args))
           /\ class_of msg0 = Some cls
           /\ arity_ok cls (List.length args) = false).
Proof.
  intros Hloads. unfold unpack.
  destruct (loads text) as [msg | e] eqn:Hl.
  - destruct msg as [| | | | |msg| |];
      try (right; left; eexists; split; reflexivity).
    destruct msg as [|msg0 args];
      [right; left; eexists; split; reflexivity|].
    rewrite unpack_from_class.
    destruct (class_of msg0) as [cls|] eqn:Hcls;
      [|right; left; eexists; split; reflexivity].
    destruct (new_returns_or_TypeError cls args) as [[m Hm] | Hm]; rewrite Hm.
    + left. eauto.
    + right. right. split; [reflexivity|].
      exists msg0, args, cls. repeat split; try assumption.
      apply new_arity. exact Hm.
  - destruct (Hloads e eq_refl) as [msg ->].
    right. left. eexists. split; reflexivity.
Qed.

(** C1 (amended). As long as [json.loads] raises nothing but
    [JSONDecodeError] and a frame whose first element selects a class
    carries a number of further elements that the initialiser of the class
    accepts (three for a [Call], two or three for a [CallResult], three or
    four for a [CallError]), [unpack] returns a message or raises one of
    the three framing failures; and such a frame is decoded to the instance
    of the class built from those elements. *)
Theorem unpack_returns_or_framing_failure :
  forall text : string,
    (forall e, loads text = Raise e -> exists msg, e = JSONDecodeError msg) ->
    (forall msg0 args cls,
        loads text = Return (PyList (msg0 :: args)) ->
        class_of msg0 = Some cls ->
        arity_ok cls (List.length args) = true) ->
    ((exists m, unpack text = Return m)
     \/ (exists e, unpack text = Raise e /\ framing_failure e = true))
    /\ (forall msg0 args cls,
           loads text = Return (PyList (msg0 :: args)) ->
           class_of msg0 = Some cls ->
           exists m, new cls args = Return m /\ unpack text = Return m).
Proof.
  intros text Hloads Harity. split.
  - destruct (unpack_outcomes text Hloads)
      as [Hm | [He | (_ & msg0 & args & cls & Hl & Hcls & Hbad)]]; auto.
    rewrite (Harity msg0 args cls Hl Hcls) in Hbad. discriminate.
  - intros msg0 args cls Hl Hcls.
    destruct (new_returns_or_TypeError cls args) as [[m Hm] | Hm].
    + exists m. split; [exact Hm|].
      unfold unpack. rewrite Hl, unpack_from_class, Hcls. exact Hm.
    + apply new_arity in Hm. rewrite (Harity msg0 args cls Hl Hcls) in Hm.
      discriminate.
Qed.

(** C9 (amended). A [Call] that [unpack] returns comes from a frame of four
    elements, the first equal to 2, and is built from the other three as
    they are: nothing is required of the unique id or of the action. *)
Theorem unpack_Call_fields :
  forall (text : string) (call : Call.t),
    unpack text = Return (ACall call) ->
    exists msg0 unique_id action payload,
      loads text = Return (PyList [msg0; unique_id; action; payload])
      /\ eq_int msg0 2 = true
      /\ call = Call.__init__ unique_id action payload.
Proof.
  intros text call. unfold unpack.
  destruct (loads text) as [msg | e]; [|destruct e; discriminate].
  destruct msg as [| | | | |msg| |]; try discriminate.
  destruct msg as [|msg0 args]; [discriminate|].
  rewrite unpack_from_class. unfold class_of. simpl.
  change Call.message_type_id with 2.
  destruct (eq_int msg0 2) eqn:H2.
  - destruct args as [|a0 [|a1 [|a2 [|a3 args]]]]; simpl; try discriminate.
    intros [= <-]. exists msg0, a0, a1, a2. auto.
  - destruct (eq_int msg0 CallResult.message_type_id).
    + destruct args as [|a0 [|a1 [|a2 [|a3 args]]]]; simpl; discriminate.
    + destruct (eq_int msg0 CallError.message_type_id); [|discriminate].
      destruct args as [|a0 [|a1 [|a2 [|a3 [|a4 args]]]]]; simpl; discriminate.
Qed.

End CodecFacts.

(** ** The reference [json] module reads back what it writes *)

Section JsonRoundTrip.
Import PyJson.

(** Induction on a value, with the property known of the members of a list,
    a dictionary or an instance. *)
Lemma value_nested_ind (P : value -> Prop) :
  P PyNone ->
  (forall b, P (PyBool b)) ->
  (forall n, P (PyInt n)) ->
  (forall f, P (PyFloat f)) ->
  (forall s, P (PyStr s)) ->
  (forall l, Forall P l -> P (PyList l)) ->
  (forall items, Forall (fun kv => P (snd kv)) items -> P (PyDict items)) ->
  (forall fields, Forall (fun kv => P (snd kv)) fields -> P (PyData fields)) ->
  forall v, P v.
Proof.
  intros HNone HBool HInt HFloat HStr HList HDict HData.
  fix IH 1. intros [| b | n | f | s | l | items | fields].
  - exact HNone.
  - apply HBool.
  - apply HInt.
  - apply HFloat.
  - apply HStr.
  - apply HList. induction l as [|x l IHl]; constructor; [apply IH | exact IHl].
  - apply HDict. induction items as [|[k x] items IHl]; constructor;
      [apply IH | exact IHl].
  - apply HData. induction fields as [|[k x] fields IHl]; constructor;
      [apply IH | exact IHl].
Qed.

(** *** Concatenation *)

Lemma append_cons (c : ascii) (s t : string) :
  String c s +:+ t = String c (s +:+ t).
Proof. reflexivity. Qed.

Lemma append_nil_l (s : string) : "" +:+ s = s.
Proof. reflexivity. Qed.

Lemma append_nil_r (a : string) : a +:+ "" = a.
Proof.
  induction a as [|x a IH]; [reflexivity|].
  rewrite append_cons, IH. reflexivity.
Qed.

Lemma append_assoc (a b c : string) : (a +:+ b) +:+ c = a +:+ (b +:+ c).
Proof.
  induction a as [|x a IH]; [reflexivity|].
  rewrite !append_cons, IH. reflexivity.
Qed.

Lemma length_append (a b : string) :
  String.length (a +:+ b) = (String.length a + String.length b)%nat.
Proof.
  induction a as [|x a IH]; [reflexivity|].
  rewrite append_cons. simpl. rewrite IH. reflexivity.
Qed.

(** Concatenations to the right, with the characters of a known prefix in
    front. *)
Ltac norm_app :=
  repeat (rewrite append_assoc || rewrite append_cons || rewrite append_nil_l).

(** What follows a value is nothing, a comma or a closing bracket. *)
Lemma follows_inv (rest : string) :
  follows rest = true ->
  rest = "" \/ exists r, rest = String "," r \/ rest = String "]" r \/ rest = String "}" r.
Proof.
  destruct rest as [|c r]; [auto|]. simpl. intros Hc. right. exists r.
  destruct (Ascii.eqb_spec c ",") as [-> | _]; [auto|].
  destruct (Ascii.eqb_spec c "]") as [-> | _]; [auto|].
  destruct (Ascii.eqb_spec c "}") as [-> | _]; [auto|]. discriminate.
Qed.

(** *** Strings *)

(** [scanstring] reads the escape of a character as that character. *)
Lemma scanstring_escape_char (c : ascii) (tail : string) :
  scanstring (escape_char c +:+ tail)
  = bind (scanstring tail) (fun r => Return (String c (fst r), snd r)).
Proof. destruct c as [[] [] [] [] [] [] [] []]; reflexivity. Qed.

(** [scanstring] reads an escaped string, up to its closing quote, as the
    string. *)
Lemma scanstring_escape (s rest : string) :
  scanstring (escape s +:+ String dquote rest) = Return (s, rest).
Proof.
  induction s as [|c s IH]; [reflexivity|].
  change (escape (String c s)) with (escape_char c +:+ escape s).
  rewrite append_assoc, scanstring_escape_char, IH. reflexivity.
Qed.

Lemma scanstring_basestring (s rest : string) :
  exists body, encode_basestring_ascii s +:+ rest = String dquote body
               /\ scanstring body = Return (s, rest).
Proof.
  exists (escape s +:+ String dquote rest). split.
  - unfold encode_basestring_ascii.
    change (String dquote ((escape s +:+ String dquote "") +:+ rest)
            = String dquote (escape s +:+ String dquote rest)).
    now rewrite append_assoc.
  - apply scanstring_escape.
Qed.

(** *** Numbers *)

(** [scan_digits] reads a decimal numeral up to a character that is not a
    digit. *)
Lemma scan_digits_uint (u : Decimal.uint) (rest : string) :
  starts_with_digit rest = false ->
  scan_digits (NilEmpty.string_of_uint u +:+ rest) = (u, rest).
Proof.
  intros Hrest.
  induction u as [|u IH|u IH|u IH|u IH|u IH|u IH|u IH|u IH|u IH|u IH];
    cbn [NilEmpty.string_of_uint];
    try (rewrite append_cons; cbn [scan_digits digit_of_char]; rewrite IH;
         reflexivity).
  change (scan_digits rest = (Decimal.Nil, rest)).
  destruct rest as [|c r]; [reflexivity|]. simpl in *.
  destruct (digit_of_char c); [discriminate | reflexivity].
Qed.

Lemma to_uint_unorm (p : positive) : Decimal.unorm (Pos.to_uint p) = Pos.to_uint p.
Proof.
  rewrite <- DecimalPos.Unsigned.to_of, DecimalPos.Unsigned.of_to. reflexivity.
Qed.

(** The decimal numeral of a positive number starts with a digit other
    than 0. *)
Lemma to_uint_head (p : positive) :
  match Pos.to_uint p with
  | Decimal.Nil | Decimal.D0 _ => False
  | _ => True
  end.
Proof.
  pose proof (to_uint_unorm p) as Hnorm.
  pose proof (DecimalPos.Unsigned.to_uint_nonzero p) as Hzero.
  pose proof (DecimalPos.Unsigned.to_uint_nonnil p) as Hnil.
  destruct (Pos.to_uint p) as [|u|u|u|u|u|u|u|u|u|u]; try exact I.
  - apply Hnil. reflexivity.
  - rewrite unorm_D0 in Hnorm.
    destruct (Decimal.uint_eq_dec u Decimal.Nil) as [-> | Hu]; [apply Hzero; reflexivity|].
    pose proof (nb_digits_unorm u Hu) as Hlen. rewrite Hnorm in Hlen.
    simpl in Hlen. lia.
Qed.

Lemma scan_integer_pos (p : positive) (rest : string) :
  starts_with_digit rest = false ->
  scan_integer (NilEmpty.string_of_uint (Pos.to_uint p) +:+ rest)
  = Some (Pos.to_uint p, rest).
Proof.
  intros Hrest. pose proof (to_uint_head p) as Hhead.
  pose proof (scan_digits_uint (Pos.to_uint p) rest Hrest) as Hscan.
  destruct (Pos.to_uint p) as [|u|u|u|u|u|u|u|u|u|u]; try destruct Hhead;
    cbn [NilEmpty.string_of_uint] in *; rewrite append_cons in *;
    cbn [scan_integer digit_of_char]; rewrite Hscan; reflexivity.
Qed.

Lemma follows_not_digit (rest : string) :
  follows rest = true -> starts_with_digit rest = false.
Proof.
  intros Hf. destruct (follows_inv rest Hf) as [-> | (r & [-> | [-> | ->]])];
    reflexivity.
Qed.

Lemma scan_number_int (neg : bool) (p : positive) (rest : string) :
  follows rest = true ->
  scan_number neg (NilEmpty.string_of_uint (Pos.to_uint p) +:+ rest)
  = Some (PyInt (if neg then Z.neg p else Z.pos p), rest).
Proof.
  intros Hf. unfold scan_number.
  rewrite (scan_integer_pos p rest (follows_not_digit rest Hf)).
  assert (Hval : Z_of_numeral neg (Pos.to_uint p) = if neg then Z.neg p else Z.pos p).
  { unfold Z_of_numeral, N.of_uint. rewrite DecimalPos.Unsigned.of_to.
    destruct neg; reflexivity. }
  destruct (follows_inv rest Hf) as [-> | (r & [-> | [-> | ->]])];
    cbn [scan_fraction scan_exponent Ascii.eqb Bool.eqb orb andb];
    rewrite Hval; reflexivity.
Qed.

(** [match_number] reads the text of an [int] as that [int]. *)
Lemma match_number_int (n : Z) (rest : string) :
  follows rest = true ->
  match_number (string_of_Z n +:+ rest) = Some (PyInt n, rest).
Proof.
  intros Hf. destruct n as [|p|p]; unfold string_of_Z.
  - destruct (follows_inv rest Hf) as [-> | (r & [-> | [-> | ->]])]; reflexivity.
  - pose proof (to_uint_head p) as Hhead.
    pose proof (scan_number_int false p rest Hf) as Hscan.
    destruct (Pos.to_uint p) as [|u|u|u|u|u|u|u|u|u|u]; try destruct Hhead;
      cbn [NilEmpty.string_of_uint] in *; rewrite append_cons in *;
      exact Hscan.
  - rewrite append_cons. exact (scan_number_int true p rest Hf).
Qed.

(** On a digit or a minus sign [scan_once] is [match_number]. *)
Lemma scan_once_number (fuel : nat) (c : ascii) (s : string) (r : value * string) :
  number_start c = true ->
  match_number (String c s) = Some r ->
  scan_once (S fuel) (String c s) = Return r.
Proof.
  destruct c as [[] [] [] [] [] [] [] []]; try discriminate; intros _ Hm;
    cbn -[match_number]; rewrite Hm; reflexivity.
Qed.

Lemma string_of_Z_head (n : Z) :
  exists c s, string_of_Z n = String c s /\ number_start c = true
              /\ starts_value (String c s) = true.
Proof.
  destruct n as [|p|p]; unfold string_of_Z.
  - exists "0"%char, ""; auto.
  - pose proof (to_uint_head p) as Hhead.
    destruct (Pos.to_uint p) as [|u|u|u|u|u|u|u|u|u|u]; try destruct Hhead;
      cbn [NilEmpty.string_of_uint]; eexists _, _; repeat split.
  - exists "-"%char. eexists. repeat split.
Qed.

Lemma scan_once_int (fuel : nat) (n : Z) (rest : string) :
  follows rest = true ->
  scan_once (S fuel) (string_of_Z n +:+ rest) = Return (PyInt n, rest).
Proof.
  intros Hf. pose proof (match_number_int n rest Hf) as Hm.
  destruct (string_of_Z_head n) as (c & s & Heq & Hc & _).
  rewrite Heq, append_cons in *. exact (scan_once_number fuel c _ _ Hc Hm).
Qed.

(** *** Lists and dictionaries *)

(** There is no white space to skip in front of a value. *)
Lemma skip_whitespace_value (s : string) :
  starts_value s = true -> skip_whitespace s = s.
Proof.
  destruct s as [|c s]; [reflexivity|]. simpl.
  destruct (is_whitespace c); [discriminate | reflexivity].
Qed.

Lemma starts_value_append (s t : string) :
  starts_value s = true -> starts_value (s +:+ t) = true.
Proof. destruct s as [|c s]; [discriminate | exact id]. Qed.

(** The first steps of [scan_once] on a list, a dictionary and a string
    that are not empty, and of [scan_items] and [scan_pairs]. *)
Lemma scan_once_list (fuel : nat) (s : string) :
  starts_value s = true ->
  scan_once (S fuel) (String "[" s)
  = bind (scan_items fuel s) (fun r => Return (PyList (fst r), snd r)).
Proof.
  destruct s as [|c s]; [discriminate|].
  destruct c as [[] [] [] [] [] [] [] []]; try discriminate; reflexivity.
Qed.

Lemma scan_once_dict (fuel : nat) (s : string) :
  scan_once (S fuel) (String "{" (String dquote s))
  = bind (scan_pairs fuel (String dquote s))
         (fun r => Return (PyDict (dict_of_pairs (fst r)), snd r)).
Proof. reflexivity. Qed.

Lemma scan_once_str (fuel : nat) (s : string) :
  scan_once (S fuel) (String dquote s)
  = bind (scanstring s) (fun r => Return (PyStr (fst r), snd r)).
Proof. reflexivity. Qed.

Lemma scan_items_S (fuel : nat) (s : string) :
  scan_items (S fuel) s
  = bind (scan_once fuel s)
         (fun r =>
            match skip_whitespace (snd r) with
            | String "]" rest => Return ([fst r], rest)
            | String "," rest =>
                bind (scan_items fuel (skip_whitespace rest))
                     (fun r' => Return (fst r :: fst r', snd r'))
            | _ => Raise (JSONDecodeError "Expecting ',' delimiter")
            end).
Proof. reflexivity. Qed.

Lemma scan_pairs_S (fuel : nat) (s : string) :
  scan_pairs (S fuel) (String dquote s)
  = bind (scanstring s)
         (fun k =>
            match skip_whitespace (snd k) with
            | String ":" rest1 =>
                bind (scan_once fuel (skip_whitespace rest1))
                     (fun r =>
                        match skip_whitespace (snd r) with
                        | String "}" rest2 => Return ([(fst k, fst r)], rest2)
                        | String "," rest2 =>
                            bind (scan_pairs fuel (skip_whitespace rest2))
                                 (fun r' => Return ((fst k, fst r) :: fst r', snd r'))
                        | _ => Raise (JSONDecodeError "Expecting ',' delimiter")
                        end)
            | _ => Raise (JSONDecodeError "Expecting ':' delimiter")
            end).
Proof. reflexivity. Qed.

(** [scan_items] reads the text of the members of a list back as the
    members, given that each member is read back. *)
Lemma encode_rest_items (l : list value) :
  Forall encodes l ->
  forallb representable l = true ->
  exists t,
    encode_rest encode "]" l = Return t
    /\ (S (items_fuel l) <= String.length t)%nat
    /\ forall (v0 : value) (text0 : string) (fuel : nat) (rest : string),
         reads_back v0 text0 ->
         (S (fuel_of v0 + items_fuel l) <= fuel)%nat ->
         follows rest = true ->
         scan_items fuel (text0 +:+ t +:+ rest) = Return (v0 :: l, rest).
Proof.
  induction 1 as [|v l Hv Hl IH]; intros Hrep.
  - exists "]". split; [reflexivity|]. split; [simpl; lia|].
    intros v0 text0 fuel rest (Hstart & _ & Hread) Hfuel Hrest.
    destruct fuel as [|fuel]; [lia|]. simpl in Hfuel.
    rewrite scan_items_S, Hread; [|lia|reflexivity]. reflexivity.
  - simpl in Hrep. apply andb_true_iff in Hrep as [Hrv Hrl].
    destruct (Hv Hrv) as (text & Henc & Hback).
    destruct (IH Hrl) as (t & Hrest_enc & Hlen & Hitems).
    exists (", " +:+ text +:+ t). split; [|split].
    + simpl. rewrite Henc. simpl. rewrite Hrest_enc. reflexivity.
    + destruct Hback as (_ & Hlen_text & _).
      rewrite !append_cons, append_nil_l. cbn [String.length].
      rewrite length_append. unfold items_fuel in *. simpl. lia.
    + intros v0 text0 fuel rest (Hstart0 & _ & Hread0) Hfuel Hrest.
      destruct fuel as [|fuel]; [lia|].
      unfold items_fuel in Hfuel; simpl in Hfuel; fold (items_fuel l) in Hfuel.
      rewrite scan_items_S. norm_app.
      rewrite Hread0; [|lia|reflexivity].
      cbn [bind snd fst skip_whitespace is_whitespace Ascii.eqb Bool.eqb orb].
      rewrite skip_whitespace_value
        by (apply starts_value_append; apply Hback).
      rewrite (Hitems v text fuel rest Hback); [reflexivity | lia | exact Hrest].
Qed.

(** [scan_pairs] reads the text of the pairs of a dictionary back as the
    pairs, given that each value is read back. *)
Lemma encode_rest_pairs (d : list (string * value)) :
  Forall (fun kv => encodes (snd kv)) d ->
  forallb (fun kv => representable (snd kv)) d = true ->
  exists t,
    encode_rest (encode_pair encode) "}" d = Return t
    /\ (S (pairs_fuel d) <= String.length t)%nat
    /\ forall (k0 : string) (v0 : value) (text0 : string) (fuel : nat)
              (rest : string),
         reads_back v0 text0 ->
         (S (fuel_of v0 + pairs_fuel d) <= fuel)%nat ->
         follows rest = true ->
         scan_pairs fuel ((encode_basestring_ascii k0 +:+ ": " +:+ text0)
                          +:+ t +:+ rest)
         = Return ((k0, v0) :: d, rest).
Proof.
  induction 1 as [|[k v] d Hv Hd IH]; intros Hrep.
  - exists "}". split; [reflexivity|]. split; [simpl; lia|].
    intros k0 v0 text0 fuel rest (Hstart & _ & Hread) Hfuel Hrest.
    destruct fuel as [|fuel]; [lia|]. simpl in Hfuel. norm_app.
    destruct (scanstring_basestring k0
                (String ":" (String " " (text0 +:+ String "}" rest))))
      as (body & -> & Hscan).
    rewrite scan_pairs_S, Hscan.
    cbn [bind snd fst skip_whitespace is_whitespace Ascii.eqb Bool.eqb orb].
    rewrite skip_whitespace_value by (apply starts_value_append, Hstart).
    rewrite Hread; [|lia|reflexivity]. reflexivity.
  - simpl in Hrep, Hv. apply andb_true_iff in Hrep as [Hrv Hrd].
    destruct (Hv Hrv) as (text & Henc & Hback).
    destruct (IH Hrd) as (t & Hrest_enc & Hlen & Hpairs).
    exists (", " +:+ (encode_basestring_ascii k +:+ ": " +:+ text) +:+ t).
    split; [|split].
    + simpl. unfold encode_pair at 1. simpl. rewrite Henc. simpl.
      rewrite Hrest_enc. reflexivity.
    + destruct Hback as (_ & Hlen_text & _).
      norm_app. cbn [String.length]. rewrite length_append.
      cbn [String.length]. rewrite length_append.
      unfold pairs_fuel in *. simpl. lia.
    + intros k0 v0 text0 fuel rest (Hstart0 & _ & Hread0) Hfuel Hrest.
      destruct fuel as [|fuel]; [lia|].
      unfold pairs_fuel in Hfuel; simpl in Hfuel; fold (pairs_fuel d) in Hfuel.
      norm_app.
      match goal with
      | |- scan_pairs _ (encode_basestring_ascii k0 +:+ ?X) = _ =>
          destruct (scanstring_basestring k0 X) as (body & -> & Hscan)
      end.
      rewrite scan_pairs_S, Hscan.
      cbn [bind snd fst skip_whitespace is_whitespace Ascii.eqb Bool.eqb orb].
      rewrite skip_whitespace_value by (apply starts_value_append, Hstart0).
      rewrite Hread0; [|lia|reflexivity].
      cbn [bind snd fst skip_whitespace is_whitespace Ascii.eqb Bool.eqb orb].
      rewrite skip_whitespace_value by reflexivity.
      specialize (Hpairs k v text fuel rest Hback).
      revert Hpairs. norm_app. intros ->; [reflexivity | lia | exact Hrest].
Qed.

(** [dict(pairs)] is [pairs] when the keys are distinct. *)
Lemma unique_keys_NoDup (keys : list string) :
  unique_keys keys = true -> NoDup keys.
Proof.
  induction keys as [|k keys IH]; [constructor|].
  simpl. intros [Hk Hkeys]%andb_true_iff. constructor; [|exact (IH Hkeys)].
  intros Hin. apply negb_true_iff in Hk.
  assert (existsb (String.eqb k) keys = true) as Hex; [|congruence].
  apply existsb_exists. exists k. split; [|apply String.eqb_refl].
  apply list_elem_of_In, Hin.
Qed.

Lemma dict_set_fresh (d : list (string * value)) (k : string) (v : value) :
  k ∉ List.map fst d -> dict_set d k v = (d ++ [(k, v)])%list.
Proof.
  induction d as [|[k' v'] d IH]; [reflexivity|].
  simpl. intros Hk. apply not_elem_of_cons in Hk as [Hne Hk].
  destruct (String.eqb_spec k' k) as [-> | _]; [congruence|].
  now rewrite IH.
Qed.

Lemma dict_of_pairs_from (pairs acc : list (string * value)) :
  NoDup (List.map fst acc ++ List.map fst pairs) ->
  List.fold_left (fun d kv => dict_set d (fst kv) (snd kv)) pairs acc
  = (acc ++ pairs)%list.
Proof.
  revert acc. induction pairs as [|[k v] pairs IH]; intros acc Hnodup.
  - simpl. now rewrite app_nil_r.
  - simpl. rewrite dict_set_fresh.
    + rewrite IH; [now rewrite <- app_assoc|].
      rewrite List.map_app. simpl. now rewrite <- app_assoc.
    + simpl in Hnodup. apply NoDup_app in Hnodup as (_ & Hdisj & _).
      intros Hin. apply (Hdisj k Hin). left.
Qed.

Lemma dict_of_pairs_unique (d : list (string * value)) :
  unique_keys (List.map fst d) = true -> dict_of_pairs d = d.
Proof.
  intros Hkeys. unfold dict_of_pairs.
  rewrite dict_of_pairs_from; [reflexivity|].
  apply unique_keys_NoDup, Hkeys.
Qed.

(** [json.dumps] writes every representable value as a text that
    [scan_once] reads back. *)
(** *** Floats *)

Lemma spec_float_eqb_eq (f f' : spec_float) : spec_float_eqb f f' = true -> f = f'.
Proof.
  destruct f as [s | s | | s m e], f' as [s' | s' | | s' m' e']; simpl;
    try discriminate; try reflexivity.
  - intros Hs. apply Bool.eqb_prop in Hs. congruence.
  - intros Hs. apply Bool.eqb_prop in Hs. congruence.
  - intros H. apply andb_true_iff in H as [H He]. apply andb_true_iff in H as [Hs Hm].
    apply Bool.eqb_prop in Hs. apply Pos.eqb_eq in Hm. apply Z.eqb_eq in He.
    congruence.
Qed.

(** The digits at the head of a text are the same when something that may
    follow a value comes after the text. *)
Lemma scan_digits_follows (s rest : string) :
  follows rest = true ->
  scan_digits (s +:+ rest) = (fst (scan_digits s), snd (scan_digits s) +:+ rest).
Proof.
  intros Hf. induction s as [|c s IH].
  - rewrite append_nil_l.
    destruct (follows_inv rest Hf) as [-> | (r & [-> | [-> | ->]])]; reflexivity.
  - rewrite append_cons. cbn [scan_digits].
    destruct (digit_of_char c) as [d|]; [|reflexivity].
    rewrite IH. destruct (scan_digits s) as [u r]. reflexivity.
Qed.

Lemma scan_integer_follows (s rest : string) (u : Decimal.uint) (r : string) :
  follows rest = true ->
  scan_integer s = Some (u, r) ->
  scan_integer (s +:+ rest) = Some (u, r +:+ rest).
Proof.
  intros Hf. destruct s as [|c s]; [discriminate|].
  rewrite append_cons. unfold scan_integer.
  destruct (Ascii.eqb_spec c "0") as [-> | Hc].
  - intros [= <- <-]. reflexivity.
  - assert (Hgen : forall t,
               match String c t with
               | String "0" rest0 => Some (Decimal.D0 Decimal.Nil, rest0)
               | String c0 _ =>
                   match digit_of_char c0 with
                   | Some _ => Some (scan_digits (String c t))
                   | None => None
                   end
               | EmptyString => None
               end
               = match digit_of_char c with
                 | Some _ => Some (scan_digits (String c t))
                 | None => None
                 end).
    { intros t. destruct c as [[] [] [] [] [] [] [] []]; try reflexivity.
      destruct Hc. reflexivity. }
    rewrite !Hgen. destruct (digit_of_char c) as [d|] eqn:Hd; [|discriminate].
    intros Hs. assert (Hs' : scan_digits (String c s) = (u, r)) by congruence.
    rewrite <- append_cons, (scan_digits_follows _ _ Hf), Hs'. reflexivity.
Qed.

Lemma scan_fraction_follows (s rest : string) :
  follows rest = true ->
  scan_fraction (s +:+ rest)
  = (fst (scan_fraction s), snd (scan_fraction s) +:+ rest).
Proof.
  intros Hf. destruct s as [|c s].
  - rewrite append_nil_l.
    destruct (follows_inv rest Hf) as [-> | (r & [-> | [-> | ->]])]; reflexivity.
  - rewrite append_cons. unfold scan_fraction.
    destruct (Ascii.eqb_spec c ".") as [-> | Hc].
    + rewrite (scan_digits_follows _ _ Hf).
      destruct (scan_digits s) as [[] r]; reflexivity.
    + destruct c as [[] [] [] [] [] [] [] []]; try reflexivity.
      destruct Hc. reflexivity.
Qed.

Lemma scan_exponent_follows (s rest : string) :
  follows rest = true ->
  scan_exponent (s +:+ rest)
  = (fst (scan_exponent s), snd (scan_exponent s) +:+ rest).
Proof.
  intros Hf. destruct s as [|c s].
  - rewrite append_nil_l.
    destruct (follows_inv rest Hf) as [-> | (r & [-> | [-> | ->]])]; reflexivity.
  - rewrite append_cons. unfold scan_exponent.
    destruct (Ascii.eqb c "e" || Ascii.eqb c "E")%bool; [|reflexivity].
    assert (Hsign : forall (A : Type) (k : bool * string -> A),
               k (match s +:+ rest with
                  | String "-" r1 => (true, r1)
                  | String "+" r1 => (false, r1)
                  | _ => (false, s +:+ rest)
                  end)
               = k (let '(eneg, r1) := match s with
                                       | String "-" r1 => (true, r1)
                                       | String "+" r1 => (false, r1)
                                       | _ => (false, s)
                                       end in (eneg, r1 +:+ rest))).
    { intros A k. destruct s as [|c' s'].
      - rewrite append_nil_l.
        destruct (follows_inv rest Hf) as [-> | (r & [-> | [-> | ->]])]; reflexivity.
      - rewrite append_cons.
        destruct c' as [[] [] [] [] [] [] [] []]; reflexivity. }
    rewrite (Hsign _ (fun p => let '(eneg, r1) := p in
                               match scan_digits r1 with
                               | (Decimal.Nil, _) => (None, String c (s +:+ rest))
                               | (d, r') => (Some (Z_of_numeral eneg d), r')
                               end)).
    destruct (match s with
              | String "-" r1 => (true, r1)
              | String "+" r1 => (false, r1)
              | _ => (false, s)
              end) as [eneg r1].
    rewrite (scan_digits_follows _ _ Hf).
    destruct (scan_digits r1) as [[] r']; reflexivity.
Qed.

Lemma scan_number_follows (neg : bool) (s rest : string) (v : value) (r : string) :
  follows rest = true ->
  scan_number neg s = Some (v, r) ->
  scan_number neg (s +:+ rest) = Some (v, r +:+ rest).
Proof.
  intros Hf. unfold scan_number.
  destruct (scan_integer s) as [[int_part s2]|] eqn:Hint; [|discriminate].
  rewrite (scan_integer_follows _ _ _ _ Hf Hint).
  rewrite (scan_fraction_follows _ _ Hf).
  destruct (scan_fraction s2) as [frac s3]. cbn [fst snd].
  rewrite (scan_exponent_follows _ _ Hf).
  destruct (scan_exponent s3) as [exp s4]. cbn [fst snd].
  destruct frac, exp; intros [= <- <-]; reflexivity.
Qed.

(** [NUMBER_RE] matches at the head of a text what it matches alone. *)
Lemma match_number_follows (s rest : string) (v : value) (r : string) :
  follows rest = true ->
  match_number s = Some (v, r) ->
  match_number (s +:+ rest) = Some (v, r +:+ rest).
Proof.
  intros Hf. destruct s as [|c s].
  - discriminate.
  - rewrite append_cons. unfold match_number.
    destruct (Ascii.eqb_spec c "-") as [-> | Hc].
    + apply scan_number_follows, Hf.
    + assert (Hgen : forall t,
                 match String c t with
                 | String "-" r0 => scan_number true r0
                 | _ => scan_number false (String c t)
                 end = scan_number false (String c t)).
      { intros t. destruct c as [[] [] [] [] [] [] [] []]; try reflexivity.
        destruct Hc. reflexivity. }
      rewrite !Hgen. rewrite <- append_cons. apply scan_number_follows, Hf.
Qed.

(** A text that [NUMBER_RE] matches starts as a number does. *)
Lemma match_number_start (s : string) (r : value * string) :
  match_number s = Some r ->
  exists c s', s = String c s' /\ number_start c = true
               /\ starts_value s = true.
Proof.
  destruct s as [|c s']; [discriminate|].
  intros Hm. exists c, s'. split; [reflexivity|].
  assert (Hc : number_start c = true).
  { unfold match_number in Hm.
    destruct (Ascii.eqb_spec c "-") as [-> | Hc]; [reflexivity|].
    assert (Hs : scan_number false (String c s') = Some r).
    { destruct c as [[] [] [] [] [] [] [] []]; try exact Hm.
      destruct Hc. reflexivity. }
    unfold scan_number in Hs.
    destruct (scan_integer (String c s')) as [[u s2]|] eqn:Hint; [|discriminate].
    unfold scan_integer in Hint. unfold number_start.
    destruct (digit_of_char c) as [d|] eqn:Hd; [apply orb_true_r|].
    destruct c as [[] [] [] [] [] [] [] []]; discriminate. }
  split; [exact Hc|].
  destruct c as [[] [] [] [] [] [] [] []]; try discriminate Hc; reflexivity.
Qed.

(** A float that passes the test is written by its [repr], which is read
    back as the float. *)
Lemma float_reads_back_finite (f : spec_float) :
  float_reads_back f = true ->
  encode (PyFloat f) = Return (float_repr f)
  /\ match_number (float_repr f) = Some (PyFloat f, "").
Proof.
  unfold float_reads_back. intros Hback.
  destruct (match_number (float_repr f)) as [[v r]|] eqn:Hm; [|discriminate].
  destruct v as [| | |f'| | | |]; try discriminate.
  destruct r; [|discriminate].
  apply spec_float_eqb_eq in Hback. subst f'. split; [|reflexivity].
  destruct f as [s | s | | s mantissa exponent].
  - reflexivity.
  - destruct s; vm_compute in Hm; discriminate Hm.
  - vm_compute in Hm. discriminate Hm.
  - cbn [encode]. reflexivity.
Qed.

Lemma scan_once_float (fuel : nat) (f : spec_float) (rest : string) :
  float_reads_back f = true ->
  follows rest = true ->
  scan_once (S fuel) (float_repr f +:+ rest) = Return (PyFloat f, rest).
Proof.
  intros Hback Hf.
  destruct (float_reads_back_finite f Hback) as [_ Hm].
  destruct (match_number_start _ _ Hm) as (c & s' & Heq & Hc & _).
  pose proof (match_number_follows _ rest _ _ Hf Hm) as Hm'.
  rewrite append_nil_l in Hm'. rewrite Heq, append_cons in *.
  exact (scan_once_number fuel c _ _ Hc Hm').
Qed.

(** *** The induction *)

Lemma encode_reads_back (v : value) : encodes v.
Proof.
  induction v as [| b | n | f | s | l IH | items IH | fields IH]
    using value_nested_ind; intros Hrep; try discriminate Hrep.
  - exists "null". split; [reflexivity|]. repeat split; [simpl; lia|].
    intros [|fuel] rest Hfuel _; [simpl in Hfuel; lia | reflexivity].
  - exists (if b then "true" else "false"). split; [reflexivity|].
    destruct b; (repeat split; [simpl; lia|]);
      intros [|fuel] rest Hfuel _; (simpl in Hfuel; lia) || reflexivity.
  - exists (string_of_Z n). split; [reflexivity|].
    destruct (string_of_Z_head n) as (c & s & Heq & _ & Hstart).
    split; [rewrite Heq; exact Hstart|]. split; [rewrite Heq; simpl; lia|].
    intros [|fuel] rest Hfuel Hrest; [simpl in Hfuel; lia|].
    apply scan_once_int, Hrest.
  - destruct (float_reads_back_finite f Hrep) as [Henc Hm].
    exists (float_repr f). split; [exact Henc|].
    destruct (match_number_start _ _ Hm) as (c & s' & Heq & _ & Hstart).
    split; [exact Hstart|]. split; [rewrite Heq; simpl; lia|].
    intros [|fuel] rest Hfuel Hrest; [simpl in Hfuel; lia|].
    apply scan_once_float; assumption.
  - exists (encode_basestring_ascii s). split; [reflexivity|].
    split; [reflexivity|]. split; [simpl; lia|].
    intros [|fuel] rest Hfuel _; [simpl in Hfuel; lia|].
    destruct (scanstring_basestring s rest) as (body & -> & Hscan).
    rewrite scan_once_str, Hscan. reflexivity.
  - destruct l as [|v0 l].
    { exists "[]". split; [reflexivity|]. repeat split; [simpl; lia|].
      intros [|fuel] rest Hfuel _; [simpl in Hfuel; lia | reflexivity]. }
    simpl in Hrep. apply andb_true_iff in Hrep as [Hr0 Hrl].
    apply Forall_cons in IH as [IH0 IHl].
    destruct (IH0 Hr0) as (text0 & Henc0 & Hback0).
    destruct (encode_rest_items l IHl Hrl) as (t & Henc & Hlen & Hitems).
    exists (String "[" (text0 +:+ t)). split; [|split; [|split]].
    + simpl. rewrite Henc0. simpl. fold encode. rewrite Henc. reflexivity.
    + reflexivity.
    + destruct Hback0 as (_ & Hlen0 & _). cbn [String.length].
      rewrite length_append. simpl. fold (items_fuel l). lia.
    + intros [|fuel] rest Hfuel Hrest; [simpl in Hfuel; lia|].
      simpl in Hfuel. fold (items_fuel l) in Hfuel.
      rewrite append_cons, scan_once_list
        by (rewrite append_assoc; apply starts_value_append, Hback0).
      rewrite append_assoc, (Hitems v0 text0 fuel rest Hback0);
        [reflexivity | lia | exact Hrest].
  - destruct items as [|[k0 v0] d].
    { exists "{}". split; [reflexivity|]. repeat split; [simpl; lia|].
      intros [|fuel] rest Hfuel _; [simpl in Hfuel; lia | reflexivity]. }
    pose proof Hrep as Hrep'.
    simpl in Hrep. apply andb_true_iff in Hrep as [Hkeys Hrep].
    apply andb_true_iff in Hrep as [Hr0 Hrd].
    apply Forall_cons in IH as [IH0 IHd]. simpl in IH0.
    destruct (IH0 Hr0) as (text0 & Henc0 & Hback0).
    destruct (encode_rest_pairs d IHd Hrd) as (t & Henc & Hlen & Hpairs).
    exists (String "{" ((encode_basestring_ascii k0 +:+ ": " +:+ text0) +:+ t)).
    split; [|split; [|split]].
    + simpl. unfold encode_pair at 1. simpl. rewrite Henc0. simpl. fold encode.
      rewrite Henc. reflexivity.
    + reflexivity.
    + destruct Hback0 as (_ & Hlen0 & _). cbn [String.length].
      norm_app. rewrite length_append. cbn [String.length].
      rewrite length_append. simpl. fold (pairs_fuel d). lia.
    + intros [|fuel] rest Hfuel Hrest; [simpl in Hfuel; lia|].
      simpl in Hfuel. fold (pairs_fuel d) in Hfuel.
      specialize (Hpairs k0 v0 text0 fuel rest Hback0).
      rewrite append_cons. revert Hpairs. norm_app.
      unfold encode_basestring_ascii at 1 2. rewrite !append_cons.
      intros Hpairs. rewrite scan_once_dict, Hpairs; [|lia|exact Hrest].
      cbn [bind fst snd]. rewrite dict_of_pairs_unique; [reflexivity|].
      simpl in Hrep'. apply andb_true_iff in Hrep' as [Hk _]. exact Hk.
Qed.

(** [json.loads (json.dumps v)] is [v], for every representable [v]. *)
Theorem loads_dumps (v : value) :
  representable v = true ->
  exists text, dumps v = Return text /\ loads text = Return v.
Proof.
  intros Hrep.
  destruct (encode_reads_back v Hrep) as (text & Henc & Hstart & Hlen & Hread).
  exists text. split; [exact Henc|].
  unfold loads. rewrite (skip_whitespace_value text Hstart).
  rewrite <- (append_nil_r text) at 2.
  rewrite Hread; [reflexivity | lia | reflexivity].
Qed.

(** *** Failures of the decoder *)

Lemma decode_error_bind {A B : Type} (r : result A) (k : A -> result B) :
  decode_error r -> (forall a, decode_error (k a)) -> decode_error (bind r k).
Proof. destruct r as [a | e]; simpl; auto. Qed.

(** One step through a computation of the decoder. *)
Ltac decode_error_step :=
  match goal with
  | |- decode_error (bind _ _) => apply decode_error_bind; [|intros ?]
  | |- decode_error (Return _) => exact I
  | |- decode_error (Raise (JSONDecodeError _)) => exact I
  | |- decode_error expecting_value => exact I
  | |- decode_error (if ?b then _ else _) => destruct b
  | |- decode_error (match ?x with _ => _ end) => destruct x
  end.

Lemma scanstring_decode_error (n : nat) :
  forall s, (String.length s <= n)%nat -> decode_error (scanstring s).
Proof.
  induction n as [|n IH]; intros s Hlen.
  - destruct s; [exact I | simpl in Hlen; lia].
  - destruct s as [|c rest]; [exact I|]. simpl in Hlen.
    cbn [scanstring].
    repeat (decode_error_step; try (apply IH; simpl in *; lia)).
Qed.

Lemma scan_decode_error (fuel : nat) :
  (forall s, decode_error (scan_once fuel s))
  /\ (forall s, decode_error (scan_items fuel s))
  /\ (forall s, decode_error (scan_pairs fuel s)).
Proof.
  induction fuel as [|fuel (IHonce & IHitems & IHpairs)];
    [repeat split; intros s; exact I|].
  repeat split; intros s.
  - cbn [scan_once].
    repeat (decode_error_step;
            try apply IHitems; try apply IHpairs;
            try (eapply scanstring_decode_error; reflexivity)).
  - cbn [scan_items].
    repeat (decode_error_step; try apply IHonce; try apply IHitems).
  - cbn [scan_pairs].
    repeat (decode_error_step; try apply IHonce; try apply IHpairs;
            try (eapply scanstring_decode_error; reflexivity)).
Qed.

(** The reference [json.loads] raises nothing but [JSONDecodeError]. *)
Lemma loads_decode_error (s : string) : decode_error (loads s).
Proof.
  unfold loads.
  repeat (decode_error_step; try apply scan_decode_error).
Qed.

Lemma loads_raises_JSONDecodeError (s : string) (e : exn) :
  loads s = Raise e -> exists msg, e = JSONDecodeError msg.
Proof.
  intros Hraise. pose proof (loads_decode_error s) as Herr.
  rewrite Hraise in Herr. destruct e; try destruct Herr. eauto.
Qed.

End JsonRoundTrip.

(** ** The round trip of a [Call] *)

Lemma representable_not_dataclass (v : value) :
  representable v = true -> is_dataclass v = false.
Proof. destruct v; (reflexivity || discriminate). Qed.

(** What [unpack] asks of the [json] module, for the text of a [Call]: that
    [json.loads] reads the frame back.  The type id 2 then selects [Call],
    which is built from the other three elements. *)
Lemma unpack_Call_frame `{Runtime} (call : Call.t) (text : string) :
  is_dataclass (Call.payload call) = false ->
  loads text
  = Return (PyList [PyInt Call.message_type_id; Call.unique_id call;
                    Call.action call; Call.payload call]) ->
  unpack text = Return (ACall call).
Proof.
  destruct call as [unique_id action payload]. simpl. intros Hpayload Hloads.
  unfold unpack. rewrite Hloads, unpack_from_class.
  cbn [class_of List.find eq_int message_type_id Call.message_type_id Z.eqb
       Pos.eqb new].
  unfold Call.__init__. rewrite Hpayload. reflexivity.
Qed.

(** C3. With a [json] module that reads back the values it writes, as the
    reference one does, [unpack] gives back every [Call] from the text
    [to_json] makes of it: the same unique id, action and payload.  The
    values are those of JSON: [None], [bool], [int], [float], [str], and
    lists and dictionaries of them. *)
Theorem unpack_to_json_Call :
  forall `{Runtime},
    (forall v : value,
        representable v = true ->
        exists text, dumps v = Return text /\ loads text = Return v) ->
    forall call : Call.t,
      representable (Call.unique_id call) = true ->
      representable (Call.action call) = true ->
      representable (Call.payload call) = true ->
      exists text : string,
        Call.to_json call = Return text
        /\ pack (ACall call) = Return text
        /\ unpack text = Return (ACall call).
Proof.
  intros R Hjson call Hid Haction Hpayload.
  destruct (Hjson (PyList [PyInt Call.message_type_id; Call.unique_id call;
                           Call.action call; Call.payload call]))
    as (text & Hdumps & Hloads).
  { simpl. rewrite Hid, Haction, Hpayload. reflexivity. }
  exists text. split; [exact Hdumps|]. split; [exact Hdumps|].
  apply unpack_Call_frame; [|exact Hloads].
  apply representable_not_dataclass, Hpayload.
Qed.

(** ** The schema store: caching *)

Section SchemaCache.
Context `{Runtime}.

(** What [get_schema] does once the directory and the name are known. *)
Lemma get_schema_unfold (message_type_id action : value) (ocpp_version : string)
    (st : store) (dir : string) (name : value) :
  schemas_dir ocpp_version = Return dir ->
  schema_name message_type_id action ocpp_version = Return name ->
  get_schema message_type_id action ocpp_version st
  = match _schemas st !! relative_path dir name with
    | Some schema => (Return schema, st)
    | None =>
        let path := path_join module_dir (relative_path dir name) in
        let st' := {| _schemas := _schemas st; opened := opened st ++ [path] |} in
        match read_text path with
        | Raise e => (Raise e, st')
        | Return data =>
            match loads data with
            | Raise e => (Raise e, st')
            | Return schema =>
                (Return schema,
                 {| _schemas := <[relative_path dir name := schema]> (_schemas st);
                    opened := opened st' |})
            end
        end
    end.
Proof. intros Hdir Hname. unfold get_schema. rewrite Hdir, Hname. reflexivity. Qed.

(** A call that returns went through the version test and the name. *)
Lemma get_schema_returns (message_type_id action : value) (ocpp_version : string)
    (st st' : store) (schema : value) :
  get_schema message_type_id action ocpp_version st = (Return schema, st') ->
  exists dir name,
    schemas_dir ocpp_version = Return dir
    /\ schema_name message_type_id action ocpp_version = Return name.
Proof.
  unfold get_schema.
  destruct (schemas_dir ocpp_version) as [dir|]; [|discriminate].
  destruct (schema_name message_type_id action ocpp_version) as [name|];
    [|discriminate].
  eauto.
Qed.

(** [get_schema] never removes or replaces an entry of the cache. *)
Lemma get_schema_keeps_entries (message_type_id action : value)
    (ocpp_version : string) (st : store) (key : string) (schema : value) :
  _schemas st !! key = Some schema ->
  _schemas (snd (get_schema message_type_id action ocpp_version st)) !! key
  = Some schema.
Proof.
  intros Hkey. unfold get_schema.
  destruct (schemas_dir ocpp_version) as [dir|]; [|exact Hkey].
  destruct (schema_name message_type_id action ocpp_version) as [name|];
    [|exact Hkey].
  cbv zeta.
  destruct (_schemas st !! relative_path dir name) eqn:Hhit; [exact Hkey|].
  destruct (read_text _) as [data|]; [|exact Hkey].
  destruct (loads data) as [schema'|]; [|exact Hkey].
  cbn [snd _schemas]. rewrite lookup_insert_ne; [exact Hkey|].
  intros Heq. rewrite Heq, Hkey in Hhit. discriminate.
Qed.

Lemma after_calls_keeps_entries (calls : list (value * value * string))
    (st : store) (key : string) (schema : value) :
  _schemas st !! key = Some schema ->
  _schemas (after_calls calls st) !! key = Some schema.
Proof.
  revert st. induction calls as [|[[mt action] ver] calls IH]; intros st Hkey;
    [exact Hkey|].
  simpl. apply IH, get_schema_keeps_entries, Hkey.
Qed.

(** The two directories differ, and so do the keys under them. *)
Lemma relative_path_versions (name name' : value) :
  relative_path "v16" name <> relative_path "v20" name'.
Proof. unfold relative_path. discriminate. Qed.

Lemma schemas_dir_inj (v v' dir : string) :
  schemas_dir v = Return dir -> schemas_dir v' = Return dir -> v = v'.
Proof.
  unfold schemas_dir. intros Hv Hv'.
  destruct (String.eqb v "1.6") eqn:E1.
  - injection Hv as <-. destruct (String.eqb v' "1.6") eqn:E1'.
    + apply String.eqb_eq in E1, E1'. congruence.
    + destruct (String.eqb v' "2.0"); discriminate.
  - destruct (String.eqb v "2.0") eqn:E2; [|discriminate]. injection Hv as <-.
    destruct (String.eqb v' "1.6"); [discriminate|].
    destruct (String.eqb v' "2.0") eqn:E2'; [|discriminate].
    apply String.eqb_eq in E2, E2'. congruence.
Qed.

Lemma schemas_dir_cases (v dir : string) :
  schemas_dir v = Return dir -> dir = "v16" \/ dir = "v20".
Proof.
  unfold schemas_dir.
  destruct (String.eqb v "1.6"); [intros [= <-]; auto|].
  destruct (String.eqb v "2.0"); [intros [= <-]; auto | discriminate].
Qed.

(** C6 (amended). After a call of [get_schema] has returned a schema, every
    later call with the same arguments returns that schema from the cache:
    it opens no file and leaves the store as it is.  A call for another
    protocol version uses another key: when it returns, the cache holds the
    first schema under the first key and the schema it returned under its
    own, which it found there or loaded from the file of that key. *)
Theorem get_schema_loads_once_per_key :
  forall (message_type_id action : value) (ocpp_version : string)
         (st st1 : store) (schema : value),
    get_schema message_type_id action ocpp_version st = (Return schema, st1) ->
    (forall calls : list (value * value * string),
        let st2 := after_calls calls st1 in
        get_schema message_type_id action ocpp_version st2 = (Return schema, st2))
    /\ (forall (ocpp_version' : string) (schema' : value) (st2 : store),
           ocpp_version' <> ocpp_version ->
           get_schema message_type_id action ocpp_version' st1
           = (Return schema', st2) ->
           exists key key' : string,
             key <> key'
             /\ _schemas st2 !! key = Some schema
             /\ _schemas st2 !! key' = Some schema'
             /\ (st2 = st1
                 \/ (_schemas st1 !! key' = None
                     /\ opened st2 = (opened st1 ++ [path_join module_dir key'])%list))).
Proof.
  intros mt action ver st st1 schema Hcall.
  destruct (get_schema_returns _ _ _ _ _ _ Hcall) as (dir & name & Hdir & Hname).
  assert (Hcached : _schemas st1 !! relative_path dir name = Some schema).
  { rewrite (get_schema_unfold _ _ _ _ _ _ Hdir Hname) in Hcall.
    destruct (_schemas st !! relative_path dir name) eqn:Hhit.
    - injection Hcall as <- <-. exact Hhit.
    - cbv zeta in Hcall.
      destruct (read_text _) as [data|]; [|discriminate].
      destruct (loads data) as [schema0|]; [|discriminate].
      injection Hcall as <- <-. simpl. apply lookup_insert_eq. }
  split.
  - intros calls st2. subst st2.
    rewrite (get_schema_unfold _ _ _ _ _ _ Hdir Hname).
    rewrite (after_calls_keeps_entries calls st1 _ _ Hcached). reflexivity.
  - intros ver' schema' st2 Hver Hcall'.
    destruct (get_schema_returns _ _ _ _ _ _ Hcall') as (dir' & name' & Hdir' & Hname').
    exists (relative_path dir name), (relative_path dir' name').
    assert (Hkeys : relative_path dir name <> relative_path dir' name').
    { destruct (schemas_dir_cases _ _ Hdir) as [-> | ->];
        destruct (schemas_dir_cases _ _ Hdir') as [-> | ->].
      - destruct Hver. exact (schemas_dir_inj _ _ _ Hdir' Hdir).
      - apply relative_path_versions.
      - intros Heq. symmetry in Heq. revert Heq. apply relative_path_versions.
      - destruct Hver. exact (schemas_dir_inj _ _ _ Hdir' Hdir). }
    split; [exact Hkeys|].
    rewrite (get_schema_unfold _ _ _ _ _ _ Hdir' Hname') in Hcall'.
    destruct (_schemas st1 !! relative_path dir' name') eqn:Hhit.
    + injection Hcall' as <- <-. auto.
    + cbv zeta in Hcall'.
      destruct (read_text _) as [data|]; [|discriminate].
      destruct (loads data) as [schema0|]; [|discriminate].
      injection Hcall' as <- <-. simpl.
      rewrite lookup_insert_ne by (intros Heq; apply Hkeys; symmetry; exact Heq).
      rewrite lookup_insert_eq. auto.
Qed.

End SchemaCache.

(** ** The payload validator *)

Section Validator.
Context `{Runtime}.

(** X6. A [CallResult] that [unpack] returns comes from a frame of three
    or four elements whose first selects [CallResult]; it has no action
    unless the frame carries a fourth element, which is then its action. *)
Lemma unpack_CallResult_fields (text : string) (call_result : CallResult.t) :
  unpack text = Return (ACallResult call_result) ->
  exists msg0 unique_id payload rest,
    loads text = Return (PyList (msg0 :: unique_id :: payload :: rest))
    /\ class_of msg0 = Some CallResult_
    /\ (rest = [] /\ call_result = CallResult.__init__ unique_id payload None
        \/ exists action, rest = [action]
             /\ call_result = CallResult.__init__ unique_id payload (Some action)).
Proof.
  unfold unpack.
  destruct (loads text) as [msg | e]; [|destruct e; discriminate].
  destruct msg as [| | | | |msg| |]; try discriminate.
  destruct msg as [|msg0 args]; [discriminate|].
  rewrite unpack_from_class.
  destruct (class_of msg0) as [[| |]|] eqn:Hcls; try discriminate;
    destruct args as [|a0 [|a1 [|a2 [|a3 [|a4 args]]]]]; simpl; try discriminate;
    intros [= <-]; exists msg0, a0, a1; eauto 8.
Qed.


End Validator.

(** ** The properties on concrete frames

    The frames are read by the reference [json] module. *)

(** The frames of section 8 of the specification. *)
Example unpack_not_json :
  @unpack (reference_runtime []) "not json"
  = raise_OCPPError FormatViolationError
      "Message is not valid JSON: Expecting value".
Proof. vm_compute. reflexivity. Qed.

Example unpack_not_a_list :
  @unpack (reference_runtime []) "{}"
  = raise_OCPPError ProtocolError
      "OCPP message hasn't the correct format. It should be a list, but got <class 'dict'> instead".
Proof. vm_compute. reflexivity. Qed.

Example unpack_empty_list :
  @unpack (reference_runtime []) "[]"
  = raise_OCPPError ProtocolError "Message doesn't contain MessageTypeID".
Proof. vm_compute. reflexivity. Qed.

Example unpack_unknown_type_id :
  @unpack (reference_runtime []) ("[9, " +:+ quoted "1" +:+ "]")
  = raise_OCPPError PropertyConstraintViolationError
      "MessageTypeId '9' isn't valid".
Proof. vm_compute. reflexivity. Qed.

(** The discriminator is compared as a number: the float 2.0 selects
    [Call]. *)
Example unpack_float_type_id :
  @unpack (reference_runtime [])
          ("[2.0, " +:+ quoted "1" +:+ ", " +:+ quoted "Heartbeat" +:+ ", {}]")
  = Return (ACall (Call.__init__ (PyStr "1") (PyStr "Heartbeat") (PyDict []))).
Proof. vm_compute. reflexivity. Qed.

(** A frame of the wrong length: the [TypeError] of [Call()] escapes. *)
Example unpack_type_id_alone :
  @unpack (reference_runtime []) "[2]" = Raise TypeError.
Proof. vm_compute. reflexivity. Qed.

(** C1, as stated, fails on a Response frame that carries three elements
    after the type id instead of two: [unpack] does not reject it, the
    third becomes the action of the [CallResult]. *)
Lemma unpack_CallResult_with_action :
  @unpack (reference_runtime [])
          ("[3, " +:+ quoted "19223201" +:+ ", {" +:+ quoted "status" +:+ ": "
           +:+ quoted "Accepted" +:+ "}, " +:+ quoted "BootNotification" +:+ "]")
  = Return (ACallResult
              {| CallResult.unique_id := PyStr "19223201";
                 CallResult.payload := PyDict [("status", PyStr "Accepted")];
                 CallResult.action := PyStr "BootNotification" |}).
Proof. vm_compute. reflexivity. Qed.

(** C1 (amended), on an ErrorResponse frame without details. *)
Lemma unpack_returns_or_framing_failure_witness :
  let text := "[4, " +:+ quoted "19223201" +:+ ", " +:+ quoted "NotImplemented"
              +:+ ", " +:+ quoted "" +:+ "]" in
  ((forall e, @loads (reference_runtime []) text = Raise e ->
              exists msg, e = JSONDecodeError msg)
   /\ (forall msg0 args cls,
          @loads (reference_runtime []) text = Return (PyList (msg0 :: args)) ->
          class_of msg0 = Some cls ->
          arity_ok cls (List.length args) = true))
  /\ ((exists m, @unpack (reference_runtime []) text = Return m)
      \/ (exists e, @unpack (reference_runtime []) text = Raise e
                    /\ framing_failure e = true))
  /\ (forall msg0 args cls,
         @loads (reference_runtime []) text = Return (PyList (msg0 :: args)) ->
         class_of msg0 = Some cls ->
         exists m, new cls args = Return m
                   /\ @unpack (reference_runtime []) text = Return m).
Proof.
  intros text.
  assert (Hloads : @loads (reference_runtime []) text
                   = Return (PyList [PyInt 4; PyStr "19223201";
                                     PyStr "NotImplemented"; PyStr ""])).
  { vm_compute. reflexivity. }
  assert (Harity : forall msg0 args cls,
             @loads (reference_runtime []) text = Return (PyList (msg0 :: args)) ->
             class_of msg0 = Some cls ->
             arity_ok cls (List.length args) = true).
  { intros msg0 args cls Hl Hcls. rewrite Hloads in Hl.
    injection Hl as <- <-. injection Hcls as <-. reflexivity. }
  split; [split; [exact (loads_raises_JSONDecodeError text) | exact Harity]|].
  exact (@unpack_returns_or_framing_failure (reference_runtime []) text
           (loads_raises_JSONDecodeError text) Harity).
Defined.

(** C9, as stated, fails on the frame [[2, "", "", {}]]: [unpack] returns a
    [Call] whose unique id and action are the empty string. *)
Lemma unpack_empty_unique_id_and_action :
  @unpack (reference_runtime [])
          ("[2, " +:+ quoted "" +:+ ", " +:+ quoted "" +:+ ", {}]")
  = Return (ACall {| Call.unique_id := PyStr "";
                     Call.action := PyStr "";
                     Call.payload := PyDict [] |}).
Proof. vm_compute. reflexivity. Qed.

(** C9 (amended), on the BootNotification request of the specification. *)
Lemma unpack_Call_fields_witness :
  let text := "[2, " +:+ quoted "19223201" +:+ ", " +:+ quoted "BootNotification"
              +:+ ", {" +:+ quoted "chargePointVendor" +:+ ": " +:+ quoted "VendorX"
              +:+ "}]" in
  let call := {| Call.unique_id := PyStr "19223201";
                 Call.action := PyStr "BootNotification";
                 Call.payload := PyDict [("chargePointVendor", PyStr "VendorX")] |} in
  @unpack (reference_runtime []) text = Return (ACall call)
  /\ exists msg0 unique_id action payload,
       @loads (reference_runtime []) text
       = Return (PyList [msg0; unique_id; action; payload])
       /\ eq_int msg0 2 = true
       /\ call = Call.__init__ unique_id action payload.
Proof.
  split.
  - vm_compute. reflexivity.
  - apply (@unpack_Call_fields (reference_runtime [])). vm_compute. reflexivity.
Defined.



(** C6, as stated, fails when the two versions of a schema are the same
    document: with [true] (the schema that accepts every payload) in both
    files, the calls for "1.6" and for "2.0" return the same result. *)
Lemma get_schema_same_result_for_two_versions :
  let files := [("/site-packages/ocpp/v16/schemas/Reset.json", "true");
                ("/site-packages/ocpp/v20/schemas/ResetRequest_v1p0.json", "true")] in
  let first := @get_schema (reference_runtime files) (PyInt MessageType.Call)
                           (PyStr "Reset") "1.6" empty_store in
  let second := @get_schema (reference_runtime files) (PyInt MessageType.Call)
                            (PyStr "Reset") "2.0" (snd first) in
  fst first = Return (PyBool true)
  /\ fst second = Return (PyBool true)
  /\ opened (snd second)
     = ["/site-packages/ocpp/v16/schemas/Reset.json";
        "/site-packages/ocpp/v20/schemas/ResetRequest_v1p0.json"].
Proof. vm_compute. repeat split; reflexivity. Qed.

(** C6 (amended), on a store with a schema for each version. *)
Lemma get_schema_loads_once_per_key_witness :
  let files := [("/site-packages/ocpp/v16/schemas/Reset.json",
                 "{" +:+ quoted "title" +:+ ": " +:+ quoted "ResetRequest" +:+ "}");
                ("/site-packages/ocpp/v20/schemas/ResetRequest_v1p0.json",
                 "{" +:+ quoted "$id" +:+ ": " +:+ quoted "ResetRequest_v1p0" +:+ "}")] in
  let schema := PyDict [("title", PyStr "ResetRequest")] in
  let st1 := {| _schemas := {["v16/schemas/Reset.json" := schema]};
                opened := ["/site-packages/ocpp/v16/schemas/Reset.json"] |} in
  @get_schema (reference_runtime files) (PyInt MessageType.Call) (PyStr "Reset")
              "1.6" empty_store
  = (Return schema, st1)
  /\ ((forall calls : list (value * value * string),
          let st2 := @after_calls (reference_runtime files) calls st1 in
          @get_schema (reference_runtime files) (PyInt MessageType.Call)
                      (PyStr "Reset") "1.6" st2
          = (Return schema, st2))
      /\ (forall (ocpp_version' : string) (schema' : value) (st2 : store),
             ocpp_version' <> "1.6" ->
             @get_schema (reference_runtime files) (PyInt MessageType.Call)
                         (PyStr "Reset") ocpp_version' st1
             = (Return schema', st2) ->
             exists key key' : string,
               key <> key'
               /\ _schemas st2 !! key = Some schema
               /\ _schemas st2 !! key' = Some schema'
               /\ (st2 = st1
                   \/ (_schemas st1 !! key' = None
                       /\ opened st2
                          = (opened st1
                             ++ [path_join (@module_dir (reference_runtime files))
                                           key'])%list)))).
Proof.
  intros files schema st1.
  assert (Hcall : @get_schema (reference_runtime files) (PyInt MessageType.Call)
                              (PyStr "Reset") "1.6" empty_store
                  = (Return schema, st1)).
  { vm_compute. reflexivity. }
  split; [exact Hcall|].
  exact (@get_schema_loads_once_per_key (reference_runtime files)
           (PyInt MessageType.Call) (PyStr "Reset") "1.6" empty_store st1
           schema Hcall).
Defined.

(** C3, on a request whose payload holds a float, the limit 16.5, with the
    reference [json] module. *)
Lemma unpack_to_json_Call_witness :
  let call := {| Call.unique_id := PyStr "19223201";
                 Call.action := PyStr "SetChargingProfile";
                 Call.payload :=
                   PyDict [("connectorId", PyInt 1);
                           ("limit", PyFloat (S754_finite false 4644337115725824
                                                          (-48)))] |} in
  ((forall v : value,
       representable v = true ->
       exists text, PyJson.dumps v = Return text /\ PyJson.loads text = Return v)
   /\ representable (Call.unique_id call) = true
   /\ representable (Call.action call) = true
   /\ representable (Call.payload call) = true)
  /\ exists text : string,
       @Call.to_json (reference_runtime []) call = Return text
       /\ @pack (reference_runtime []) (ACall call) = Return text
       /\ @unpack (reference_runtime []) text = Return (ACall call).
Proof.
  intros call.
  assert (Hpayload : representable (Call.payload call) = true).
  { vm_compute. reflexivity. }
  split.
  - split; [exact loads_dumps|]. split; [reflexivity|].
    split; [reflexivity | exact Hpayload].
  - apply (@unpack_to_json_Call (reference_runtime []) loads_dumps call);
      [reflexivity | reflexivity | exact Hpayload].
Defined.

(** The text of that request, and what [unpack] makes of it. *)
Example to_json_BootNotification :
  @Call.to_json (reference_runtime [])
    {| Call.unique_id := PyStr "19223201";
       Call.action := PyStr "BootNotification";
       Call.payload := PyDict [("chargePointVendor", PyStr "VendorX")] |}
  = Return ("[2, " +:+ quoted "19223201" +:+ ", " +:+ quoted "BootNotification"
            +:+ ", {" +:+ quoted "chargePointVendor" +:+ ": " +:+ quoted "VendorX"
            +:+ "}]").
Proof. vm_compute. reflexivity. Qed.

(** Numbers on the wire: a numeral with a fraction or an exponent is read as
    a [float], and a [float] is written by its shortest numeral. *)
Example loads_dumps_numbers :
  bind (PyJson.loads "[1, -0, 0.1, 1e16, 1E-5, 2.50, 1e400, -0.0, 123456789012345678901234567890]")
       PyJson.dumps
  = Return "[1, 0, 0.1, 1e+16, 1e-05, 2.5, Infinity, -0.0, 123456789012345678901234567890]".
Proof. vm_compute. reflexivity. Qed.

(** Floats that JSON has a numeral for: 0.1, 16.5, a third, 1e22, the
    smallest and the largest positive floats, and the two zeros; [nan] and
    the infinities have none. *)
Example floats_read_back :
  forallb float_reads_back
    [S754_finite false 7205759403792794 (-56);
     S754_finite false 4644337115725824 (-48);
     S754_finite true 6004799503160661 (-54);
     S754_finite false 4768371582031250 21;
     S754_finite false 1 (-1074);
     S754_finite false 9007199254740991 971;
     S754_zero false; S754_zero true]
  = true
  /\ List.map float_reads_back [S754_nan; S754_infinity false; S754_infinity true]
     = [false; false; false].
Proof. vm_compute. split; reflexivity. Qed.

(** Of two shortest numerals that are as close to the float, [repr] writes
    the one whose last digit is even: 562949953421312.75 is written with
    an 8, and 1125899906842624.25 with a 2. *)
Example float_repr_ties :
  PyJson.float_repr (S754_finite false 4503599627370502 (-3)) = "562949953421312.8"
  /\ PyJson.float_repr (S754_finite false 4503599627370497 (-2))
     = "1125899906842624.2".
Proof. vm_compute. split; reflexivity. Qed.

(** A key that comes twice keeps its place and takes the later value; an
    escape is read as its character and written back in its short form. *)
Example loads_dumps_object :
  bind (PyJson.loads ("{" +:+ quoted "a" +:+ ": 1, " +:+ quoted "b\u000a" +:+ ": [], "
                      +:+ quoted "a" +:+ ": null}"))
       PyJson.dumps
  = Return ("{" +:+ quoted "a" +:+ ": null, " +:+ quoted "b\n" +:+ ": []}").
Proof. vm_compute. reflexivity. Qed.

(** * Further properties of the module *)

(** ** Values with and without instances of data classes *)

(** [dataclasses.asdict] leaves no instance of a data class. *)
Lemma asdict_no_dataclass (v : value) : no_dataclass (asdict v) = true.
Proof.
  induction v using value_nested_ind; try reflexivity; simpl;
    apply forallb_forall; intros x Hin; apply in_map_iff in Hin as (y & <- & Hin);
    rewrite Forall_forall in H; apply H.
  all: try (apply list_elem_of_In; exact Hin).
Qed.

Section EncodeOutcome.
Import PyJson.

Lemma encode_rest_outcome {A : Type} (enc : A -> result string) (ok : A -> bool)
    (close : string) (l : list A) :
  Forall (fun x => if ok x then exists s, enc x = Return s
                   else enc x = Raise TypeError) l ->
  if forallb ok l then exists t, encode_rest enc close l = Return t
  else encode_rest enc close l = Raise TypeError.
Proof.
  induction 1 as [|x l Hx Hl IH]; simpl; [eauto|].
  destruct (ok x); simpl.
  - destruct Hx as [s ->]. simpl.
    destruct (forallb ok l).
    + destruct IH as [t ->]. simpl. eauto.
    + rewrite IH. reflexivity.
  - rewrite Hx. reflexivity.
Qed.

(** The reference [json.dumps] writes every value that holds no instance of
    a data class, and raises [TypeError] on the others. *)
Lemma encode_outcome (v : value) :
  if no_dataclass v then exists text, encode v = Return text
  else encode v = Raise TypeError.
Proof.
  induction v as [| b | n | f | s | l IH | items IH | fields IH]
    using value_nested_ind; simpl; eauto.
  - destruct l as [|v0 l]; [simpl; eauto|].
    apply Forall_cons_1 in IH as [H0 Hl].
    cbn [forallb encode]. fold encode.
    destruct (no_dataclass v0); simpl.
    + destruct H0 as [s0 ->]. simpl.
      pose proof (encode_rest_outcome encode no_dataclass "]" l Hl) as Hrest.
      destruct (forallb no_dataclass l).
      * destruct Hrest as [t ->]. simpl. eauto.
      * rewrite Hrest. reflexivity.
    + rewrite H0. reflexivity.
  - assert (Hpairs : Forall (fun kv => if no_dataclass (snd kv)
                                       then exists s, encode_pair encode kv = Return s
                                       else encode_pair encode kv = Raise TypeError)
                            items).
    { eapply Forall_impl; [exact IH|]. intros kv Hkv. simpl in Hkv.
      unfold encode_pair. destruct (no_dataclass (snd kv)).
      - destruct Hkv as [s ->]. simpl. eauto.
      - rewrite Hkv. reflexivity. }
    destruct items as [|kv0 d]; [simpl; eauto|].
    apply Forall_cons_1 in Hpairs as [H0 Hl].
    cbn [forallb encode]. fold encode.
    destruct (no_dataclass (snd kv0)); simpl.
    + destruct H0 as [s0 ->]. simpl.
      pose proof (encode_rest_outcome (encode_pair encode)
                    (fun kv => no_dataclass (snd kv)) "}" d Hl) as Hrest.
      simpl in Hrest.
      destruct (forallb (fun kv => no_dataclass (snd kv)) d).
      * destruct Hrest as [t ->]. simpl. eauto.
      * rewrite Hrest. reflexivity.
    + rewrite H0. reflexivity.
Qed.

Lemma dumps_returns (v : value) :
  no_dataclass v = true -> exists text, dumps v = Return text.
Proof. intros Hv. pose proof (encode_outcome v) as H. rewrite Hv in H. exact H. Qed.

Lemma dumps_raises_TypeError (v : value) :
  no_dataclass v = false -> dumps v = Raise TypeError.
Proof. intros Hv. pose proof (encode_outcome v) as H. rewrite Hv in H. exact H. Qed.

End EncodeOutcome.

Section DecodedValues.
Import PyJson.

Lemma returns_bind {A B : Type} (P : B -> Prop) (r : result A) (k : A -> result B) :
  (forall a, returns P (k a)) -> returns P (bind r k).
Proof. destruct r as [a | e]; simpl; auto. Qed.

Lemma returns_bind_with {A B : Type} (Q : A -> Prop) (P : B -> Prop)
    (r : result A) (k : A -> result B) :
  returns Q r -> (forall a, Q a -> returns P (k a)) -> returns P (bind r k).
Proof. destruct r as [a | e]; simpl; auto. Qed.

Lemma scan_number_no_dataclass (neg : bool) (s : string) (r : value * string) :
  scan_number neg s = Some r -> no_dataclass (fst r) = true.
Proof.
  unfold scan_number. destruct (scan_integer s) as [[int_part s2]|]; [|discriminate].
  destruct (scan_fraction s2) as [frac s3]. destruct (scan_exponent s3) as [exp s4].
  destruct frac, exp; intros [= <-]; reflexivity.
Qed.

Lemma match_number_no_dataclass (s : string) (r : value * string) :
  match_number s = Some r -> no_dataclass (fst r) = true.
Proof.
  unfold match_number. destruct s as [|c s']; [apply scan_number_no_dataclass|].
  destruct c as [[] [] [] [] [] [] [] []]; apply scan_number_no_dataclass.
Qed.

Lemma dict_set_no_dataclass (d : list (string * value)) (k : string) (v : value) :
  forallb (fun kv => no_dataclass (snd kv)) d = true ->
  no_dataclass v = true ->
  forallb (fun kv => no_dataclass (snd kv)) (dict_set d k v) = true.
Proof.
  intros Hd Hv. induction d as [|[k' v'] d IH]; simpl in *; [rewrite Hv; reflexivity|].
  apply andb_true_iff in Hd as [Hv' Hd].
  destruct (String.eqb k' k); simpl.
  - rewrite Hv, Hd. reflexivity.
  - rewrite Hv', (IH Hd). reflexivity.
Qed.

Lemma dict_of_pairs_no_dataclass (pairs : list (string * value)) :
  forallb (fun kv => no_dataclass (snd kv)) pairs = true ->
  forallb (fun kv => no_dataclass (snd kv)) (dict_of_pairs pairs) = true.
Proof.
  unfold dict_of_pairs.
  assert (Hgen : forall acc,
             forallb (fun kv => no_dataclass (snd kv)) acc = true ->
             forallb (fun kv => no_dataclass (snd kv)) pairs = true ->
             forallb (fun kv => no_dataclass (snd kv))
                     (fold_left (fun d kv => dict_set d (fst kv) (snd kv)) pairs acc)
             = true).
  { induction pairs as [|[k v] pairs IH]; intros acc Hacc Hp; simpl in *; [exact Hacc|].
    apply andb_true_iff in Hp as [Hv Hp].
    apply IH; [|exact Hp]. apply dict_set_no_dataclass; assumption. }
  apply Hgen. reflexivity.
Qed.

(** One step through a computation of the decoder. *)
Ltac returns_step :=
  match goal with
  | IH : forall s, returns _ (?f ?fuel s) |- returns _ (bind (?f ?fuel _) _) =>
      eapply returns_bind_with; [apply IH | cbv beta; intros ? ?]
  | |- returns _ (bind _ _) => apply returns_bind; intros ?
  | |- returns _ (Raise _) => exact I
  | |- returns _ expecting_value => exact I
  | |- returns _ (Return _) => cbn [returns fst snd no_dataclass forallb]
  | |- returns _ (if ?b then _ else _) => destruct b
  | |- returns _ (match ?x with _ => _ end) => destruct x eqn:?
  end.

Lemma scan_no_dataclass (fuel : nat) :
  (forall s, returns (fun r => no_dataclass (fst r) = true) (scan_once fuel s))
  /\ (forall s, returns (fun r => forallb no_dataclass (fst r) = true)
                        (scan_items fuel s))
  /\ (forall s, returns (fun r => forallb (fun kv => no_dataclass (snd kv)) (fst r)
                                  = true)
                        (scan_pairs fuel s)).
Proof.
  induction fuel as [|fuel (IHonce & IHitems & IHpairs)];
    [repeat split; intros s; exact I|].
  repeat split; intros s.
  - cbn [scan_once].
    repeat returns_step; try reflexivity; try assumption.
    all: try (apply dict_of_pairs_no_dataclass; assumption).
    all: try (eapply match_number_no_dataclass; eassumption).
  - cbn [scan_items].
    repeat returns_step; try reflexivity; try assumption.
    all: rewrite ?andb_true_r; try assumption.
    all: apply andb_true_iff; split; assumption.
  - cbn [scan_pairs].
    repeat returns_step; try reflexivity; try assumption.
    all: rewrite ?andb_true_r; try assumption.
    all: apply andb_true_iff; split; assumption.
Qed.

(** The reference [json.loads] returns no instance of a data class. *)
Lemma loads_no_dataclass (s : string) (v : value) :
  loads s = Return v -> no_dataclass v = true.
Proof.
  unfold loads. intros Hloads.
  pose proof (proj1 (scan_no_dataclass (S (String.length s))) (skip_whitespace s))
    as Hscan.
  destruct (scan_once _ _) as [[v' rest]|]; [|discriminate].
  simpl in Hloads, Hscan. destruct (skip_whitespace rest); [|discriminate].
  injection Hloads as <-. exact Hscan.
Qed.

End DecodedValues.

(** ** The codec: round trips and decoded frames *)

Section CodecRoundTrips.
Context `{Runtime}.

(** A frame that [unpack] decodes: the list [json.loads] returns, the class
    its first element selects and the message the class builds from the
    others. *)
Lemma unpack_returns_inv (text : string) (m : message) :
  unpack text = Return m ->
  exists msg0 args cls,
    loads text = Return (PyList (msg0 :: args))
    /\ class_of msg0 = Some cls
    /\ new cls args = Return m.
Proof.
  unfold unpack.
  destruct (loads text) as [msg | e]; [|destruct e; discriminate].
  destruct msg as [| | | | |msg| |]; try discriminate.
  destruct msg as [|msg0 args]; [discriminate|].
  rewrite unpack_from_class.
  destruct (class_of msg0) as [cls|] eqn:Hcls; [|discriminate].
  intros Hnew. exists msg0, args, cls. auto.
Qed.

Lemma new_class_of_message (cls : message_class) (args : list value) (m : message) :
  new cls args = Return m -> class_of_message m = cls.
Proof.
  destruct cls; destruct args as [|a0 [|a1 [|a2 [|a3 [|a4 args]]]]]; simpl;
    try discriminate; intros [= <-]; reflexivity.
Qed.

Lemma class_of_eq_int (msg0 : value) (cls : message_class) :
  class_of msg0 = Some cls -> eq_int msg0 (message_type_id cls) = true.
Proof.
  unfold class_of. intros Hfind. apply List.find_some in Hfind as [_ Heq]. exact Heq.
Qed.

(** What [unpack] makes of the text [json.dumps] writes for a frame. *)
Lemma unpack_dumps_frame (frame : list value) :
  (forall v : value,
      representable v = true ->
      exists text, dumps v = Return text /\ loads text = Return v) ->
  forallb representable frame = true ->
  exists text,
    dumps (PyList frame) = Return text
    /\ unpack text = unpack_from [Call_; CallResult_; CallError_] frame.
Proof.
  intros Hjson Hframe.
  destruct (Hjson (PyList frame) Hframe) as (text & Hdumps & Hloads).
  exists text. split; [exact Hdumps|]. unfold unpack. rewrite Hloads. reflexivity.
Qed.

(** X1. With a [json] module that reads back the values it writes, [unpack]
    gives back every [CallError] from the text [pack] makes of it: the same
    unique id, error code, error description and error details. *)
Theorem unpack_pack_CallError :
  (forall v : value,
      representable v = true ->
      exists text, dumps v = Return text /\ loads text = Return v) ->
  forall call_error : CallError.t,
    representable (CallError.unique_id call_error) = true ->
    representable (CallError.error_code call_error) = true ->
    representable (CallError.error_description call_error) = true ->
    representable (CallError.error_details call_error) = true ->
    exists text : string,
      pack (ACallError call_error) = Return text
      /\ unpack text = Return (ACallError call_error).
Proof.
  intros Hjson [unique_id error_code error_description error_details].
  simpl. intros Hid Hcode Hdescription Hdetails.
  destruct (unpack_dumps_frame
              [PyInt CallError.message_type_id; unique_id; error_code;
               error_description; error_details] Hjson)
    as (text & Hdumps & Hunpack).
  { simpl. rewrite Hid, Hcode, Hdescription, Hdetails. reflexivity. }
  exists text. split; [exact Hdumps|]. rewrite Hunpack. reflexivity.
Qed.

(** X2. The action of a [CallResult] does not travel: [unpack] makes of the
    text of a [CallResult] the [CallResult] of the same unique id and
    payload whose action is [None], whatever the action was. *)
Theorem unpack_pack_CallResult_drops_action :
  (forall v : value,
      representable v = true ->
      exists text, dumps v = Return text /\ loads text = Return v) ->
  forall call_result : CallResult.t,
    representable (CallResult.unique_id call_result) = true ->
    representable (CallResult.payload call_result) = true ->
    exists text : string,
      pack (ACallResult call_result) = Return text
      /\ unpack text
         = Return (ACallResult
                     {| CallResult.unique_id := CallResult.unique_id call_result;
                        CallResult.payload := CallResult.payload call_result;
                        CallResult.action := PyNone |}).
Proof.
  intros Hjson [unique_id payload action]. simpl. intros Hid Hpayload.
  destruct (unpack_dumps_frame [PyInt CallResult.message_type_id; unique_id; payload]
                               Hjson)
    as (text & Hdumps & Hunpack).
  { simpl. rewrite Hid, Hpayload. reflexivity. }
  exists text. split; [exact Hdumps|]. rewrite Hunpack. reflexivity.
Qed.

(** X3. As long as [json.loads] raises nothing but [JSONDecodeError],
    [unpack] raises [TypeError] exactly on the frames whose first element
    selects a class and whose number of further elements the initialiser of
    that class does not accept. *)
Theorem unpack_raises_TypeError_iff_wrong_length :
  forall text : string,
    (forall e, loads text = Raise e -> exists msg, e = JSONDecodeError msg) ->
    (unpack text = Raise TypeError
     <-> exists msg0 args cls,
           loads text = Return (PyList (msg0 :: args))
           /\ class_of msg0 = Some cls
           /\ arity_ok cls (List.length args) = false).
Proof.
  intros text Hloads. split.
  - intros Hraise.
    destruct (unpack_outcomes text Hloads) as [[m Hm] | [(e & He & Hframing) | [_ Hlen]]].
    + rewrite Hm in Hraise. discriminate.
    + rewrite He in Hraise. injection Hraise as ->. discriminate.
    + exact Hlen.
  - intros (msg0 & args & cls & Hl & Hcls & Harity).
    unfold unpack. rewrite Hl, unpack_from_class, Hcls.
    apply new_arity. exact Harity.
Qed.

(** X5. The first element of a frame that [unpack] decodes is a number: the
    [int] type id of the class of the message, or a [float] of that value.
    A [str], a [bool] or any other value is never taken for a type id. *)
Theorem unpack_discriminator_is_number :
  forall (text : string) (m : message),
    unpack text = Return m ->
    exists msg0 args,
      loads text = Return (PyList (msg0 :: args))
      /\ new (class_of_message m) args = Return m
      /\ (msg0 = PyInt (message_type_id (class_of_message m))
          \/ exists f, msg0 = PyFloat f
               /\ float_eq_int f (message_type_id (class_of_message m)) = true).
Proof.
  intros text m Hunpack.
  destruct (unpack_returns_inv text _ Hunpack) as (msg0 & args & cls & Hl & Hcls & Hnew).
  rewrite (new_class_of_message _ _ _ Hnew).
  exists msg0, args. split; [exact Hl|]. split; [exact Hnew|].
  apply class_of_eq_int in Hcls.
  destruct msg0 as [| b | n | f | s | l | items | fields]; simpl in Hcls;
    try discriminate.
  - destruct b, cls; discriminate.
  - left. apply Z.eqb_eq in Hcls. rewrite Hcls. reflexivity.
  - right. eauto.
Qed.

(** X7. A [CallError] that [unpack] returns comes from a frame of four or
    five elements whose first equals 4; it carries the second, third and
    fourth as they are, and its error details are the fifth, or [None] when
    the frame has four. *)
Theorem unpack_CallError_fields :
  forall (text : string) (call_error : CallError.t),
    unpack text = Return (ACallError call_error) ->
    exists msg0 unique_id error_code error_description rest,
      loads text
      = Return (PyList (msg0 :: unique_id :: error_code :: error_description :: rest))
      /\ eq_int msg0 4 = true
      /\ CallError.unique_id call_error = unique_id
      /\ CallError.error_code call_error = error_code
      /\ CallError.error_description call_error = error_description
      /\ (rest = [] /\ CallError.error_details call_error = PyNone
          \/ rest = [CallError.error_details call_error]).
Proof.
  intros text call_error Hunpack.
  destruct (unpack_returns_inv text _ Hunpack) as (msg0 & args & cls & Hl & Hcls & Hnew).
  pose proof (new_class_of_message _ _ _ Hnew) as Hclass. simpl in Hclass. subst cls.
  apply class_of_eq_int in Hcls.
  destruct args as [|a0 [|a1 [|a2 [|a3 [|a4 args]]]]]; simpl in Hnew;
    try discriminate; injection Hnew as <-;
    exists msg0, a0, a1, a2; eexists; (split; [exact Hl|]); simpl; auto 10.
Qed.

(** [pack] writes the type id of the class and the fields of the
    message. *)
Lemma pack_wire_fields (m : message) :
  pack m
  = dumps (PyList (PyInt (message_type_id (class_of_message m)) :: wire_fields m)).
Proof. destruct m; reflexivity. Qed.

(** X20. What crosses the wire is kept: with a [json] module that reads back
    the values it writes, [unpack] makes of the text of a message a message
    of the same class with the same fields on the wire, and [pack] makes
    the same text of it again. *)
Theorem pack_unpack_pack :
  (forall v : value,
      representable v = true ->
      exists text, dumps v = Return text /\ loads text = Return v) ->
  forall m : message,
    forallb representable (wire_fields m) = true ->
    exists (text : string) (m' : message),
      pack m = Return text
      /\ unpack text = Return m'
      /\ class_of_message m' = class_of_message m
      /\ wire_fields m' = wire_fields m
      /\ pack m' = Return text.
Proof.
  intros Hjson m Hfields.
  destruct (unpack_dumps_frame
              (PyInt (message_type_id (class_of_message m)) :: wire_fields m) Hjson)
    as (text & Hdumps & Hunpack).
  { simpl. exact Hfields. }
  rewrite <- pack_wire_fields in Hdumps.
  exists text.
  destruct m as [[unique_id action payload] | [unique_id payload action]
                 | [unique_id error_code error_description error_details]];
    simpl in Hfields; eexists;
    (split; [exact Hdumps|]); (split; [rewrite Hunpack; reflexivity|]).
  - repeat (apply andb_true_iff in Hfields as [? Hfields]).
    unfold Call.__init__. cbn [Call.unique_id Call.action Call.payload].
    rewrite (representable_not_dataclass payload) by assumption.
    repeat split. exact Hdumps.
  - repeat split. exact Hdumps.
  - repeat split. exact Hdumps.
Qed.

End CodecRoundTrips.

(** ** The textual representation *)

(** X21. The [repr] of a message shows its class: messages of different
    classes have different representations, whatever their fields. *)
Theorem repr_shows_the_class :
  forall `{Runtime} (m m' : message),
    repr_of_message m = repr_of_message m' ->
    class_of_message m = class_of_message m'.
Proof.
  intros R [m | m | m] [m' | m' | m']; simpl; try reflexivity;
    unfold Call.__repr__, CallResult.__repr__, CallError.__repr__;
    rewrite !append_cons; intros Heq; discriminate Heq.
Qed.

(** ** The error path *)

(** [to_exception] on a [CallError] that carries the code of a class. *)
Lemma to_exception_of_code (k : OCPPErrorKind)
    (unique_id error_description error_details : value) :
  CallError.to_exception
    {| CallError.unique_id := unique_id;
       CallError.error_code := PyStr (code k);
       CallError.error_description := error_description;
       CallError.error_details := error_details |}
  = Return {| error_class := k;
              description := error_description;
              details := error_details |}.
Proof.
  unfold CallError.to_exception. rewrite to_exception_from_find.
  destruct k; reflexivity.
Qed.

(** X8. [to_exception] never fails on a [CallError] that
    [create_call_error] has made: it gives back the [OCPPError] the
    [CallError] was made from, and for any other exception an
    [InternalError] with the generic description and empty details. *)
Theorem to_exception_create_call_error :
  forall (call : Call.t) (exception : exn),
    CallError.to_exception (Call.create_call_error call exception)
    = Return match exception with
             | OCPP e => e
             | _ => {| error_class := InternalError;
                       description := PyStr "An unexpected error occured.";
                       details := PyDict [] |}
             end.
Proof.
  intros call exception.
  destruct exception as [[k description details]| | | | | | | |];
    try reflexivity.
  unfold Call.create_call_error, CallError.__init__. simpl.
  apply to_exception_of_code.
Qed.

(** X9. An [OCPPError] travels: the [CallError] that [create_call_error]
    makes of it is packed, unpacked on the other side with the unique id of
    the [Call], and turned by [to_exception] into the same error (class,
    description and details). *)
Theorem OCPPError_over_the_wire :
  forall `{Runtime},
    (forall v : value,
        representable v = true ->
        exists text, dumps v = Return text /\ loads text = Return v) ->
    forall (call : Call.t) (e : OCPPError),
      representable (Call.unique_id call) = true ->
      representable (description e) = true ->
      representable (details e) = true ->
      exists (text : string) (call_error : CallError.t),
        pack (ACallError (Call.create_call_error call (OCPP e))) = Return text
        /\ unpack text = Return (ACallError call_error)
        /\ CallError.unique_id call_error = Call.unique_id call
        /\ CallError.to_exception call_error = Return e.
Proof.
  intros R Hjson [unique_id action payload] [k description details].
  simpl. intros Hid Hdescription Hdetails.
  destruct (unpack_dumps_frame
              [PyInt CallError.message_type_id; unique_id; PyStr (code k);
               description; details] Hjson)
    as (text & Hdumps & Hunpack).
  { simpl. rewrite Hid, Hdescription, Hdetails. reflexivity. }
  exists text. eexists. split; [exact Hdumps|].
  split; [rewrite Hunpack; reflexivity|].
  split; [reflexivity|]. apply to_exception_of_code.
Qed.

(** ** Payloads that are instances of data classes *)


(** X11. Only [Call] flattens its payload.  With the reference [json]
    module, a [Call] built with an instance of a data class for payload is
    written by [to_json], while the [CallResult] that [create_call_result]
    builds with such a payload is not: its [to_json] raises [TypeError]. *)
Theorem dataclass_payload_to_json :
  forall (files : list (string * string)) (unique_id action : value)
         (fields : list (string * value)),
    no_dataclass unique_id = true ->
    no_dataclass action = true ->
    let call := Call.__init__ unique_id action (PyData fields) in
    (exists text, @Call.to_json (reference_runtime files) call = Return text)
    /\ @CallResult.to_json (reference_runtime files)
         (Call.create_call_result call (PyData fields))
       = Raise TypeError.
Proof.
  intros files unique_id action fields Hid Haction call. subst call. split.
  - apply dumps_returns. cbn [no_dataclass forallb Call.__init__ Call.unique_id
      Call.action Call.payload is_dataclass].
    rewrite Hid, Haction, asdict_no_dataclass. reflexivity.
  - apply dumps_raises_TypeError. simpl. rewrite Hid. reflexivity.
Qed.

(** X12. With the reference [json] module, [pack] returns on every message
    that [unpack] returns. *)
Theorem pack_unpacked_message :
  forall (files : list (string * string)) (text : string) (m : message),
    @unpack (reference_runtime files) text = Return m ->
    exists text', @pack (reference_runtime files) m = Return text'.
Proof.
  intros files text m Hunpack.
  destruct (@unpack_returns_inv (reference_runtime files) text m Hunpack)
    as (msg0 & args & cls & Hl & _ & Hnew).
  apply loads_no_dataclass in Hl. simpl in Hl.
  apply andb_true_iff in Hl as [_ Hargs].
  assert (Hframe : forall frame : list value,
             forallb no_dataclass frame = true ->
             exists text', PyJson.dumps (PyList frame) = Return text').
  { intros frame Hframe. apply dumps_returns. exact Hframe. }
  destruct cls; destruct args as [|a0 [|a1 [|a2 [|a3 [|a4 args]]]]];
    simpl in Hnew; try discriminate; injection Hnew as <-;
    simpl in Hargs; repeat (apply andb_true_iff in Hargs as [? Hargs]);
    apply Hframe; simpl;
    repeat match goal with Hx : no_dataclass _ = true |- _ => rewrite Hx; clear Hx end;
    try reflexivity.
  match goal with
  | Hpayload : no_dataclass a2 = true |- _ =>
      destruct (is_dataclass a2);
      [rewrite asdict_no_dataclass | rewrite Hpayload]; reflexivity
  end.
Qed.

(** ** The schema store: invariants *)

Section SchemaStoreInvariants.
Context `{Runtime}.

Lemma empty_store_coherent : coherent empty_store.
Proof. intros key schema Hkey. simpl in Hkey. rewrite lookup_empty in Hkey. discriminate. Qed.

Lemma get_schema_coherent (message_type_id action : value) (ocpp_version : string)
    (st : store) :
  coherent st -> coherent (snd (get_schema message_type_id action ocpp_version st)).
Proof.
  intros Hst. unfold get_schema.
  destruct (schemas_dir ocpp_version) as [dir|]; [|exact Hst].
  destruct (schema_name message_type_id action ocpp_version) as [name|];
    [|exact Hst].
  cbv zeta.
  destruct (_schemas st !! relative_path dir name) eqn:Hhit; [exact Hst|].
  destruct (read_text _) as [data|] eqn:Hread; [|exact Hst].
  destruct (loads data) as [schema'|] eqn:Hloads; [|exact Hst].
  intros key schema. cbn [snd _schemas].
  destruct (decide (relative_path dir name = key)) as [<- | Hne].
  - rewrite lookup_insert_eq. intros [= <-]. eauto.
  - rewrite lookup_insert_ne by exact Hne. apply Hst.
Qed.

Lemma after_calls_coherent (calls : list (value * value * string)) (st : store) :
  coherent st -> coherent (after_calls calls st).
Proof.
  revert st. induction calls as [|[[mt action] ver] calls IH]; intros st Hst;
    [exact Hst|].
  simpl. apply IH, get_schema_coherent, Hst.
Qed.

(** With a coherent cache [get_schema] returns or raises what it does with
    an empty one. *)
Lemma get_schema_coherent_result (message_type_id action : value)
    (ocpp_version : string) (st : store) :
  coherent st ->
  fst (get_schema message_type_id action ocpp_version st)
  = fst (get_schema message_type_id action ocpp_version empty_store).
Proof.
  intros Hst. unfold get_schema.
  destruct (schemas_dir ocpp_version) as [dir|]; [|reflexivity].
  destruct (schema_name message_type_id action ocpp_version) as [name|];
    [|reflexivity].
  cbv zeta. cbn [_schemas empty_store]. rewrite lookup_empty.
  destruct (_schemas st !! relative_path dir name) as [schema|] eqn:Hhit.
  - destruct (Hst _ _ Hhit) as (data & -> & ->). reflexivity.
  - destruct (read_text _) as [data|]; [|reflexivity].
    destruct (loads data); reflexivity.
Qed.

(** X13. The cache does not show: after any sequence of calls of
    [get_schema] from the initial store, a call returns or raises what it
    would with an empty cache (the files being what they were). *)
Theorem get_schema_cache_transparent :
  forall (calls : list (value * value * string)) (message_type_id action : value)
         (ocpp_version : string),
    fst (get_schema message_type_id action ocpp_version
                    (after_calls calls empty_store))
    = fst (get_schema message_type_id action ocpp_version empty_store).
Proof.
  intros calls message_type_id action ocpp_version.
  apply get_schema_coherent_result, after_calls_coherent, empty_store_coherent.
Qed.

(** X14. A call of [get_schema] that fails stores nothing in the cache, and
    the same call fails again in the same way; when the first call had
    opened the file, the second opens it again. *)
Theorem get_schema_failure_not_cached :
  forall (message_type_id action : value) (ocpp_version : string)
         (st st' : store) (e : exn),
    get_schema message_type_id action ocpp_version st = (Raise e, st') ->
    _schemas st' = _schemas st
    /\ fst (get_schema message_type_id action ocpp_version st') = Raise e
    /\ (st' = st
        \/ exists path,
             opened st' = (opened st ++ [path])%list
             /\ opened (snd (get_schema message_type_id action ocpp_version st'))
                = (opened st' ++ [path])%list).
Proof.
  intros mt action ver st st' e. unfold get_schema.
  destruct (schemas_dir ver) as [dir|]; [|intros [= <- <-]; auto].
  destruct (schema_name mt action ver) as [name|]; [|intros [= <- <-]; auto].
  cbv zeta.
  destruct (_schemas st !! relative_path dir name) eqn:Hhit; [discriminate|].
  destruct (read_text _) as [data|] eqn:Hread.
  - destruct (loads data) as [schema|] eqn:Hloads; [discriminate|].
    intros [= <- <-]. cbn [_schemas opened]. rewrite Hhit.
    split; [reflexivity|]. split; [reflexivity|]. right. eauto.
  - intros [= <- <-]. cbn [_schemas opened]. rewrite Hhit.
    split; [reflexivity|]. split; [reflexivity|]. right. eauto.
Qed.

(** X15. [get_schema] never removes or replaces an entry of the cache:
    after any sequence of calls the cache contains the cache it started
    from. *)
Theorem get_schema_cache_grows :
  forall (calls : list (value * value * string)) (st : store),
    _schemas st ⊆ _schemas (after_calls calls st).
Proof.
  intros calls st. apply map_subseteq_spec. intros key schema.
  apply after_calls_keeps_entries.
Qed.

(** X16. The key of the cache is the relative path of the file: two calls
    whose directory and schema name give the same path share one entry, so
    that once the first has returned, the second returns the same document
    and leaves the store as it is. *)
Theorem get_schema_shared_key :
  forall (message_type_id action message_type_id' action' : value)
         (ocpp_version ocpp_version' dir dir' : string) (name name' : value)
         (st st1 : store) (schema : value),
    schemas_dir ocpp_version = Return dir ->
    schema_name message_type_id action ocpp_version = Return name ->
    schemas_dir ocpp_version' = Return dir' ->
    schema_name message_type_id' action' ocpp_version' = Return name' ->
    relative_path dir name = relative_path dir' name' ->
    get_schema message_type_id action ocpp_version st = (Return schema, st1) ->
    get_schema message_type_id' action' ocpp_version' st1 = (Return schema, st1).
Proof.
  intros mt action mt' action' ver ver' dir dir' name name' st st1 schema
         Hdir Hname Hdir' Hname' Hkey Hcall.
  rewrite (get_schema_unfold _ _ _ _ _ _ Hdir Hname) in Hcall.
  rewrite (get_schema_unfold _ _ _ _ _ _ Hdir' Hname'), <- Hkey.
  destruct (_schemas st !! relative_path dir name) eqn:Hhit.
  - injection Hcall as <- <-. rewrite Hhit. reflexivity.
  - cbv zeta in Hcall.
    destruct (read_text _) as [data|]; [|discriminate].
    destruct (loads data) as [schema0|]; [|discriminate].
    injection Hcall as <- <-. cbn [_schemas]. rewrite lookup_insert_eq. reflexivity.
Qed.

Lemma append_inj_l (a s t : string) : a +:+ s = a +:+ t -> s = t.
Proof.
  induction a as [|c a IH]; [intros Heq; exact Heq|].
  rewrite !append_cons. intros [= Heq]. apply IH, Heq.
Qed.

(** X17. For one action and one version, the schema of the [Call] and the
    schema of the [CallResult] have different keys. *)
Theorem get_schema_direction_keys_differ :
  forall (action ocpp_version dir : string) (name name' : value),
    schema_name (PyInt MessageType.Call) (PyStr action) ocpp_version = Return name ->
    schema_name (PyInt MessageType.CallResult) (PyStr action) ocpp_version
    = Return name' ->
    relative_path dir name <> relative_path dir name'.
Proof.
  intros action ver dir name name'. unfold schema_name.
  cbn [eq_int MessageType.Call MessageType.CallResult Z.eqb Pos.eqb iadd_str bind].
  destruct (String.eqb ver "2.0"); cbn [iadd_str bind]; intros [= <-] [= <-];
    unfold relative_path; cbn [format_value]; intros Heq;
    apply append_inj_l, append_inj_l in Heq;
    rewrite ?append_assoc in Heq; apply append_inj_l in Heq; discriminate Heq.
Qed.

End SchemaStoreInvariants.

(** ** The payload validator: outcomes *)

Section ValidatorOutcomes.
Context `{Runtime}.

(** A call of [get_schema] that has returned returns again, from the
    cache. *)
Lemma get_schema_again (message_type_id action : value) (ocpp_version : string)
    (st st1 : store) (schema : value) :
  get_schema message_type_id action ocpp_version st = (Return schema, st1) ->
  get_schema message_type_id action ocpp_version st1 = (Return schema, st1).
Proof.
  intros Hcall.
  destruct (get_schema_returns _ _ _ _ _ _ Hcall) as (dir & name & Hdir & Hname).
  rewrite (get_schema_unfold _ _ _ _ _ _ Hdir Hname) in Hcall.
  rewrite (get_schema_unfold _ _ _ _ _ _ Hdir Hname).
  destruct (_schemas st !! relative_path dir name) eqn:Hhit.
  - injection Hcall as <- <-. rewrite Hhit. reflexivity.
  - cbv zeta in Hcall.
    destruct (read_text _) as [data|]; [|discriminate].
    destruct (loads data) as [schema0|]; [|discriminate].
    injection Hcall as <- <-. cbn [_schemas]. rewrite lookup_insert_eq. reflexivity.
Qed.

(** A call of [get_schema] that has raised raises again. *)
Lemma get_schema_raises_again (message_type_id action : value)
    (ocpp_version : string) (st st1 : store) (e : exn) :
  get_schema message_type_id action ocpp_version st = (Raise e, st1) ->
  fst (get_schema message_type_id action ocpp_version st1) = Raise e.
Proof.
  unfold get_schema.
  destruct (schemas_dir ocpp_version) as [dir|]; [|intros [= <- <-]; reflexivity].
  destruct (schema_name message_type_id action ocpp_version) as [name|];
    [|intros [= <- <-]; reflexivity].
  cbv zeta.
  destruct (_schemas st !! relative_path dir name) eqn:Hhit; [discriminate|].
  destruct (read_text _) as [data|] eqn:Hread.
  - destruct (loads data) as [schema|] eqn:Hloads; [discriminate|].
    intros [= <- <-]. cbn [_schemas opened]. rewrite Hhit. reflexivity.
  - intros [= <- <-]. cbn [_schemas opened]. rewrite Hhit. reflexivity.
Qed.

(** The name of the schema of an action that is a [str] is a [str]. *)
Lemma schema_name_str (message_type_id : value) (action ocpp_version : string) :
  exists name,
    schema_name message_type_id (PyStr action) ocpp_version = Return (PyStr name).
Proof.
  unfold schema_name.
  destruct (eq_int message_type_id MessageType.CallResult),
           (eq_int message_type_id MessageType.Call),
           (String.eqb ocpp_version "2.0"); cbn [iadd_str bind]; eauto.
Qed.

(** The body of [validate_payload] for a message that has an action. *)
Lemma validate_payload_unfold (m : message) (action : value)
    (ocpp_version : string) :
  action_of m = Some action ->
  exists message_type_id payload,
    forall st : store,
      validate_payload m ocpp_version st
      = match get_schema (PyInt message_type_id) action ocpp_version st with
        | (Raise (OSError _), st') | (Raise (JSONDecodeError _), st') =>
            (Raise ValidationError, st')
        | (Raise e, st') => (Raise e, st')
        | (Return schema, st') =>
            match validate payload schema with
            | Raise (SchemaValidationError _) => (Raise ValidationError, st')
            | r => (r, st')
            end
        end.
Proof.
  destruct m as [m | m | m]; simpl; [intros [= <-] | intros [= <-] | discriminate];
    eauto.
Qed.

(** X18. As long as reading a file raises nothing but [OSError],
    [json.loads] nothing but [JSONDecodeError] and the validator nothing
    but its [ValidationError]: for a [Call] or a [CallResult] whose action
    is a [str], [validate_payload] returns or raises [ValidationError]
    under the versions "1.6" and "2.0", and raises [ValueError], with the
    store untouched, under any other version; for a [CallError] it raises
    [ValidationError] under every version. *)
Theorem validate_payload_outcomes :
  (forall path e, read_text path = Raise e -> exists msg, e = OSError msg) ->
  (forall data e, loads data = Raise e -> exists msg, e = JSONDecodeError msg) ->
  (forall payload schema e,
      validate payload schema = Raise e -> exists msg, e = SchemaValidationError msg) ->
  forall (m : message) (ocpp_version : string) (st : store),
    (forall action : string,
        action_of m = Some (PyStr action) ->
        if supported ocpp_version
        then fst (validate_payload m ocpp_version st) = Return tt
             \/ fst (validate_payload m ocpp_version st) = Raise ValidationError
        else validate_payload m ocpp_version st = (Raise ValueError, st))
    /\ (action_of m = None ->
        validate_payload m ocpp_version st = (Raise ValidationError, st)).
Proof.
  intros Hread Hloads Hvalidate m ver st. split.
  - intros action Haction.
    destruct (validate_payload_unfold m _ ver Haction) as (mt & payload & ->).
    unfold get_schema, schemas_dir, supported.
    destruct (String.eqb ver "1.6") eqn:H16; [|destruct (String.eqb ver "2.0") eqn:H20];
      cbn [orb]; [| |reflexivity].
    all: destruct (schema_name_str (PyInt mt) action ver) as [name ->]; cbv zeta.
    all: destruct (_schemas st !! _) as [schema|];
      [|destruct (read_text _) as [data|e] eqn:Hr;
        [destruct (loads data) as [schema|e] eqn:Hl|]].
    all: try (destruct (Hread _ _ Hr) as [msg ->]; right; reflexivity).
    all: try (destruct (Hloads _ _ Hl) as [msg ->]; right; reflexivity).
    all: destruct (validate payload schema) as [[]|e] eqn:Hv; [left; reflexivity|];
      destruct (Hvalidate _ _ _ Hv) as [msg ->]; right; reflexivity.
  - destruct m; simpl; try discriminate. reflexivity.
Qed.

(** [validate_payload] on a message of the same fields, in the store a
    first call has left. *)
Lemma validate_payload_same_fields (m : message) (ocpp_version : string)
    (st st1 : store) (r : result unit) :
  validate_payload m ocpp_version st = (r, st1) ->
  fst (validate_payload m ocpp_version st1) = r
  /\ (r = Return tt -> validate_payload m ocpp_version st1 = (Return tt, st1)).
Proof.
  intros Hcall. rename ocpp_version into ver.
  destruct (action_of m) as [action|] eqn:Haction.
  - destruct (validate_payload_unfold m _ ver Haction) as (mt & payload & Hunfold).
    rewrite Hunfold in Hcall. rewrite Hunfold. clear Hunfold Haction.
    destruct (get_schema (PyInt mt) action ver st) as [[schema|e] st'] eqn:Hg.
    + assert (st1 = st') as ->.
      { destruct (validate payload schema) as [[]|[]]; congruence. }
      rewrite (get_schema_again _ _ _ _ _ _ Hg).
      destruct (validate payload schema) as [[]|[]]; injection Hcall as <-;
        (split; [reflexivity | intros Hr; (reflexivity || discriminate Hr)]).
    + assert (st1 = st') as -> by (destruct e; congruence).
      pose proof (get_schema_raises_again _ _ _ _ _ _ Hg) as Hagain.
      destruct (get_schema (PyInt mt) action ver st') as [r2 st2].
      simpl in Hagain. subst r2.
      destruct e; injection Hcall as <-;
        (split; [reflexivity | intros Hr; discriminate Hr]).
  - destruct m; try discriminate Haction. simpl in *. injection Hcall as <- <-.
    split; [reflexivity | discriminate].
Qed.

(** A call of [get_schema] changes no object but a list. *)
Lemma action_after_not_list (message_type_id action : value) (ocpp_version : string) :
  (forall l, action <> PyList l) ->
  action_after message_type_id action ocpp_version = action.
Proof.
  intros Hlist. unfold action_after.
  destruct (schemas_dir ocpp_version); [|reflexivity].
  destruct action; try (destruct (Hlist _ eq_refl));
    destruct (eq_int message_type_id MessageType.CallResult),
             (eq_int message_type_id MessageType.Call),
             (String.eqb ocpp_version "2.0"); reflexivity.
Qed.

(** X19. [validate_payload] called again on the same message.  When the
    action of the message is not a list, the first call leaves the message
    as it is, and the second, in the store the first has left, returns or
    raises what the first did; after a call that has returned it leaves
    the store as it is: the schema comes from the cache.  When the action
    of a [CallResult] is a list, the first call under "1.6" or "2.0" has
    extended it in place by the characters of the suffix, so that the
    second call is on a message of another action. *)
Theorem validate_payload_repeatable :
  forall (m : message) (ocpp_version : string) (st st1 : store) (r : result unit),
    validate_payload m ocpp_version st = (r, st1) ->
    ((forall l, action_of m <> Some (PyList l)) ->
     message_after m ocpp_version = m
     /\ fst (validate_payload (message_after m ocpp_version) ocpp_version st1) = r
     /\ (r = Return tt ->
         validate_payload (message_after m ocpp_version) ocpp_version st1
         = (Return tt, st1)))
    /\ (forall (call_result : CallResult.t) (l : list value),
           m = ACallResult call_result ->
           CallResult.action call_result = PyList l ->
           supported ocpp_version = true ->
           action_of (message_after m ocpp_version)
           = Some (PyList
                     (l ++ List.map (fun c => PyStr (String c EmptyString))
                                    (list_ascii_of_string
                                       (if String.eqb ocpp_version "2.0"
                                        then "Response_v1p0"
                                        else "Response"))))).
Proof.
  intros m ver st st1 r Hcall. split.
  - intros Hlist.
    assert (Hsame : message_after m ver = m).
    { destruct m as [[unique_id action payload] | [unique_id payload action] | m];
        [| |reflexivity]; simpl;
        rewrite action_after_not_list; try reflexivity;
        intros l ->; exact (Hlist l eq_refl). }
    rewrite Hsame. split; [reflexivity|].
    exact (validate_payload_same_fields m ver st st1 r Hcall).
  - intros [unique_id payload action] l -> Haction Hver. simpl in Haction.
    subst action. unfold supported in Hver. simpl.
    unfold action_after, schemas_dir.
    cbn [CallResult.message_type_id MessageType.CallResult eq_int Z.eqb Pos.eqb].
    destruct (String.eqb ver "1.6") eqn:H16.
    + apply String.eqb_eq in H16. subst ver. reflexivity.
    + simpl in Hver. rewrite Hver. cbn [iadd_str_in_place iadd_str].
      rewrite <- app_assoc, <- map_app. reflexivity.
Qed.

End ValidatorOutcomes.

(** ** The further properties on concrete inputs *)

(** Reading a file of the reference runtime raises nothing but
    [OSError]. *)
Lemma read_file_raises_OSError (files : list (string * string)) (path : string)
    (e : exn) :
  read_file files path = Raise e -> exists msg, e = OSError msg.
Proof.
  induction files as [|[p text] files IH]; simpl.
  - intros [= <-]. eauto.
  - destruct (String.eqb p path); [discriminate | exact IH].
Qed.

(** X1, on an error response to the BootNotification request. *)
Lemma unpack_pack_CallError_witness :
  let call_error := {| CallError.unique_id := PyStr "19223201";
                       CallError.error_code := PyStr "NotImplemented";
                       CallError.error_description := PyStr "Unknown action";
                       CallError.error_details := PyDict [] |} in
  ((forall v : value,
       representable v = true ->
       exists text, PyJson.dumps v = Return text /\ PyJson.loads text = Return v)
   /\ representable (CallError.unique_id call_error) = true
   /\ representable (CallError.error_code call_error) = true
   /\ representable (CallError.error_description call_error) = true
   /\ representable (CallError.error_details call_error) = true)
  /\ exists text : string,
       @pack (reference_runtime []) (ACallError call_error) = Return text
       /\ @unpack (reference_runtime []) text = Return (ACallError call_error).
Proof.
  intros call_error. split.
  - split; [exact loads_dumps|]. repeat split.
  - apply (@unpack_pack_CallError (reference_runtime []) loads_dumps call_error);
      reflexivity.
Defined.

(** X2, on a response that holds the action of its request. *)
Lemma unpack_pack_CallResult_drops_action_witness :
  let call_result := {| CallResult.unique_id := PyStr "19223201";
                        CallResult.payload := PyDict [("status", PyStr "Accepted")];
                        CallResult.action := PyStr "BootNotification" |} in
  ((forall v : value,
       representable v = true ->
       exists text, PyJson.dumps v = Return text /\ PyJson.loads text = Return v)
   /\ representable (CallResult.unique_id call_result) = true
   /\ representable (CallResult.payload call_result) = true)
  /\ exists text : string,
       @pack (reference_runtime []) (ACallResult call_result) = Return text
       /\ @unpack (reference_runtime []) text
          = Return (ACallResult
                      {| CallResult.unique_id := PyStr "19223201";
                         CallResult.payload := PyDict [("status", PyStr "Accepted")];
                         CallResult.action := PyNone |}).
Proof.
  intros call_result. split.
  - split; [exact loads_dumps|]. repeat split.
  - apply (@unpack_pack_CallResult_drops_action (reference_runtime []) loads_dumps
             call_result); reflexivity.
Defined.

(** X3, on the frame [[2]]. *)
Lemma unpack_raises_TypeError_iff_wrong_length_witness :
  (forall e, @loads (reference_runtime []) "[2]" = Raise e ->
             exists msg, e = JSONDecodeError msg)
  /\ (@unpack (reference_runtime []) "[2]" = Raise TypeError
      <-> exists msg0 args cls,
            @loads (reference_runtime []) "[2]" = Return (PyList (msg0 :: args))
            /\ class_of msg0 = Some cls
            /\ arity_ok cls (List.length args) = false).
Proof.
  split; [exact (loads_raises_JSONDecodeError "[2]")|].
  exact (@unpack_raises_TypeError_iff_wrong_length (reference_runtime []) "[2]"
           (loads_raises_JSONDecodeError "[2]")).
Defined.

(** X5, on a frame whose type id is the float 2.0. *)
Lemma unpack_discriminator_is_number_witness :
  let text := "[2.0, " +:+ quoted "1" +:+ ", " +:+ quoted "Heartbeat" +:+ ", {}]" in
  let m := ACall {| Call.unique_id := PyStr "1";
                    Call.action := PyStr "Heartbeat";
                    Call.payload := PyDict [] |} in
  @unpack (reference_runtime []) text = Return m
  /\ exists msg0 args,
       @loads (reference_runtime []) text = Return (PyList (msg0 :: args))
       /\ new (class_of_message m) args = Return m
       /\ (msg0 = PyInt (message_type_id (class_of_message m))
           \/ exists f, msg0 = PyFloat f
                /\ float_eq_int f (message_type_id (class_of_message m)) = true).
Proof.
  split.
  - vm_compute. reflexivity.
  - apply (@unpack_discriminator_is_number (reference_runtime [])).
    vm_compute. reflexivity.
Defined.

(** X6, on the BootNotification response of the specification. *)
Lemma unpack_CallResult_fields_witness :
  let text := "[3, " +:+ quoted "19223201" +:+ ", {" +:+ quoted "status" +:+ ": "
              +:+ quoted "Accepted" +:+ "}]" in
  let call_result := {| CallResult.unique_id := PyStr "19223201";
                        CallResult.payload := PyDict [("status", PyStr "Accepted")];
                        CallResult.action := PyNone |} in
  @unpack (reference_runtime []) text = Return (ACallResult call_result)
  /\ exists msg0 unique_id payload rest,
       @loads (reference_runtime []) text
       = Return (PyList (msg0 :: unique_id :: payload :: rest))
       /\ class_of msg0 = Some CallResult_
       /\ (rest = [] /\ call_result = CallResult.__init__ unique_id payload None
           \/ exists action, rest = [action]
                /\ call_result = CallResult.__init__ unique_id payload (Some action)).
Proof.
  split.
  - vm_compute. reflexivity.
  - apply (@unpack_CallResult_fields (reference_runtime [])). vm_compute. reflexivity.
Defined.

(** X7, on an error response without details. *)
Lemma unpack_CallError_fields_witness :
  let text := "[4, " +:+ quoted "19223201" +:+ ", " +:+ quoted "NotImplemented"
              +:+ ", " +:+ quoted "Unknown action" +:+ "]" in
  let call_error := {| CallError.unique_id := PyStr "19223201";
                       CallError.error_code := PyStr "NotImplemented";
                       CallError.error_description := PyStr "Unknown action";
                       CallError.error_details := PyNone |} in
  @unpack (reference_runtime []) text = Return (ACallError call_error)
  /\ exists msg0 unique_id error_code error_description rest,
       @loads (reference_runtime []) text
       = Return (PyList (msg0 :: unique_id :: error_code :: error_description :: rest))
       /\ eq_int msg0 4 = true
       /\ CallError.unique_id call_error = unique_id
       /\ CallError.error_code call_error = error_code
       /\ CallError.error_description call_error = error_description
       /\ (rest = [] /\ CallError.error_details call_error = PyNone
           \/ rest = [CallError.error_details call_error]).
Proof.
  split.
  - vm_compute. reflexivity.
  - apply (@unpack_CallError_fields (reference_runtime [])). vm_compute. reflexivity.
Defined.

(** X9, on a Reset request answered by a [NotSupportedError]. *)
Lemma OCPPError_over_the_wire_witness :
  let call := {| Call.unique_id := PyStr "19223201";
                 Call.action := PyStr "Reset";
                 Call.payload := PyDict [("type", PyStr "Hard")] |} in
  let e := {| error_class := NotSupportedError;
              description := PyStr "Requested Action is recognized but not supported";
              details := PyDict [("cause", PyStr "Reset")] |} in
  ((forall v : value,
       representable v = true ->
       exists text, PyJson.dumps v = Return text /\ PyJson.loads text = Return v)
   /\ representable (Call.unique_id call) = true
   /\ representable (description e) = true
   /\ representable (details e) = true)
  /\ exists (text : string) (call_error : CallError.t),
       @pack (reference_runtime []) (ACallError (Call.create_call_error call (OCPP e)))
       = Return text
       /\ @unpack (reference_runtime []) text = Return (ACallError call_error)
       /\ CallError.unique_id call_error = Call.unique_id call
       /\ CallError.to_exception call_error = Return e.
Proof.
  intros call e. split.
  - split; [exact loads_dumps|]. repeat split.
  - apply (@OCPPError_over_the_wire (reference_runtime []) loads_dumps call e);
      reflexivity.
Defined.

(** X11, on a BootNotification payload given as an instance of a data
    class. *)
Lemma dataclass_payload_to_json_witness :
  let fields := [("chargePointVendor", PyStr "VendorX")] in
  let call := Call.__init__ (PyStr "1") (PyStr "BootNotification") (PyData fields) in
  (no_dataclass (PyStr "1") = true /\ no_dataclass (PyStr "BootNotification") = true)
  /\ (exists text, @Call.to_json (reference_runtime []) call = Return text)
  /\ @CallResult.to_json (reference_runtime [])
       (Call.create_call_result call (PyData fields))
     = Raise TypeError.
Proof.
  intros fields call. split; [split; reflexivity|].
  apply (dataclass_payload_to_json [] (PyStr "1") (PyStr "BootNotification") fields);
    reflexivity.
Defined.

(** X12, on a request whose payload holds a float. *)
Lemma pack_unpacked_message_witness :
  let text := "[2, " +:+ quoted "1" +:+ ", " +:+ quoted "MeterValues" +:+ ", {"
              +:+ quoted "value" +:+ ": 0.5}]" in
  let m := ACall {| Call.unique_id := PyStr "1";
                    Call.action := PyStr "MeterValues";
                    Call.payload :=
                      PyDict [("value", PyFloat (S754_finite false 4503599627370496 (-53)))] |} in
  @unpack (reference_runtime []) text = Return m
  /\ exists text', @pack (reference_runtime []) m = Return text'.
Proof.
  split.
  - vm_compute. reflexivity.
  - apply (pack_unpacked_message []
             ("[2, " +:+ quoted "1" +:+ ", " +:+ quoted "MeterValues" +:+ ", {"
              +:+ quoted "value" +:+ ": 0.5}]")).
    vm_compute. reflexivity.
Defined.

(** X14, on a schema whose file is missing. *)
Lemma get_schema_failure_not_cached_witness :
  let path := "/site-packages/ocpp/v16/schemas/Reset.json" in
  let e := OSError ("[Errno 2] No such file or directory: " +:+ PyRepr.repr_str path) in
  let st' := {| _schemas := ∅; opened := [path] |} in
  @get_schema (reference_runtime []) (PyInt MessageType.Call) (PyStr "Reset") "1.6"
              empty_store
  = (Raise e, st')
  /\ (_schemas st' = _schemas empty_store
      /\ fst (@get_schema (reference_runtime []) (PyInt MessageType.Call)
                          (PyStr "Reset") "1.6" st')
         = Raise e
      /\ (st' = empty_store
          \/ exists path',
               opened st' = (opened empty_store ++ [path'])%list
               /\ opened (snd (@get_schema (reference_runtime [])
                                           (PyInt MessageType.Call) (PyStr "Reset")
                                           "1.6" st'))
                  = (opened st' ++ [path'])%list)).
Proof.
  intros path e st'.
  assert (Hcall : @get_schema (reference_runtime []) (PyInt MessageType.Call)
                              (PyStr "Reset") "1.6" empty_store
                  = (Raise e, st')).
  { vm_compute. reflexivity. }
  split; [exact Hcall|].
  exact (@get_schema_failure_not_cached (reference_runtime [])
           (PyInt MessageType.Call) (PyStr "Reset") "1.6" empty_store st' e Hcall).
Defined.

(** X16, under "1.6": the schema of a [CallResult] for Reset and the schema
    of a [Call] for ResetResponse are one entry. *)
Lemma get_schema_shared_key_witness :
  let files := [("/site-packages/ocpp/v16/schemas/ResetResponse.json", "{}")] in
  let st1 := {| _schemas := {["v16/schemas/ResetResponse.json" := PyDict []]};
                opened := ["/site-packages/ocpp/v16/schemas/ResetResponse.json"] |} in
  (schemas_dir "1.6" = Return "v16"
   /\ schema_name (PyInt MessageType.CallResult) (PyStr "Reset") "1.6"
      = Return (PyStr "ResetResponse")
   /\ schema_name (PyInt MessageType.Call) (PyStr "ResetResponse") "1.6"
      = Return (PyStr "ResetResponse")
   /\ @get_schema (reference_runtime files) (PyInt MessageType.CallResult)
                  (PyStr "Reset") "1.6" empty_store
      = (Return (PyDict []), st1))
  /\ @get_schema (reference_runtime files) (PyInt MessageType.Call)
                 (PyStr "ResetResponse") "1.6" st1
     = (Return (PyDict []), st1).
Proof.
  intros files st1.
  assert (Hcall : @get_schema (reference_runtime files) (PyInt MessageType.CallResult)
                              (PyStr "Reset") "1.6" empty_store
                  = (Return (PyDict []), st1)).
  { vm_compute. reflexivity. }
  split; [repeat split; exact Hcall|].
  exact (@get_schema_shared_key (reference_runtime files)
           (PyInt MessageType.CallResult) (PyStr "Reset")
           (PyInt MessageType.Call) (PyStr "ResetResponse")
           "1.6" "1.6" "v16" "v16" (PyStr "ResetResponse") (PyStr "ResetResponse")
           empty_store st1 (PyDict [])
           eq_refl eq_refl eq_refl eq_refl eq_refl Hcall).
Defined.

(** X17, on Reset under "2.0". *)
Lemma get_schema_direction_keys_differ_witness :
  (schema_name (PyInt MessageType.Call) (PyStr "Reset") "2.0"
   = Return (PyStr "ResetRequest_v1p0")
   /\ schema_name (PyInt MessageType.CallResult) (PyStr "Reset") "2.0"
      = Return (PyStr "ResetResponse_v1p0"))
  /\ @relative_path (reference_runtime []) "v20" (PyStr "ResetRequest_v1p0")
     <> @relative_path (reference_runtime []) "v20" (PyStr "ResetResponse_v1p0").
Proof.
  split; [repeat split|].
  exact (@get_schema_direction_keys_differ (reference_runtime []) "Reset" "2.0" "v20"
           (PyStr "ResetRequest_v1p0") (PyStr "ResetResponse_v1p0")
           eq_refl eq_refl).
Defined.

(** X18, on a Heartbeat request, under "1.6" and under "3.0". *)
Lemma validate_payload_outcomes_witness :
  let files := [("/site-packages/ocpp/v16/schemas/Heartbeat.json", "{}")] in
  let m := ACall {| Call.unique_id := PyStr "1";
                    Call.action := PyStr "Heartbeat";
                    Call.payload := PyDict [] |} in
  ((forall path e, @read_text (reference_runtime files) path = Raise e ->
                   exists msg, e = OSError msg)
   /\ (forall data e, @loads (reference_runtime files) data = Raise e ->
                      exists msg, e = JSONDecodeError msg)
   /\ (forall payload schema e,
          @validate (reference_runtime files) payload schema = Raise e ->
          exists msg, e = SchemaValidationError msg)
   /\ action_of m = Some (PyStr "Heartbeat"))
  /\ (fst (@validate_payload (reference_runtime files) m "1.6" empty_store) = Return tt
      \/ fst (@validate_payload (reference_runtime files) m "1.6" empty_store)
         = Raise ValidationError)
  /\ @validate_payload (reference_runtime files) m "3.0" empty_store
     = (Raise ValueError, empty_store).
Proof.
  intros files m.
  assert (Hread : forall path e, @read_text (reference_runtime files) path = Raise e ->
                                 exists msg, e = OSError msg)
    by exact (read_file_raises_OSError files).
  assert (Hloads : forall data e, @loads (reference_runtime files) data = Raise e ->
                                  exists msg, e = JSONDecodeError msg)
    by exact loads_raises_JSONDecodeError.
  assert (Hvalidate : forall payload schema e,
             @validate (reference_runtime files) payload schema = Raise e ->
             exists msg, e = SchemaValidationError msg)
    by (intros payload schema e; discriminate).
  split; [auto|]. split.
  - exact (proj1 (@validate_payload_outcomes
                    (reference_runtime files) Hread Hloads Hvalidate m "1.6"
                    empty_store)
                 "Heartbeat" eq_refl).
  - exact (proj1 (@validate_payload_outcomes
                    (reference_runtime files) Hread Hloads Hvalidate m "3.0"
                    empty_store)
                 "Heartbeat" eq_refl).
Defined.

(** X19, on a Heartbeat request. *)
Lemma validate_payload_repeatable_witness :
  let files := [("/site-packages/ocpp/v16/schemas/Heartbeat.json", "{}")] in
  let m := ACall {| Call.unique_id := PyStr "1";
                    Call.action := PyStr "Heartbeat";
                    Call.payload := PyDict [] |} in
  let st1 := {| _schemas := {["v16/schemas/Heartbeat.json" := PyDict []]};
                opened := ["/site-packages/ocpp/v16/schemas/Heartbeat.json"] |} in
  (@validate_payload (reference_runtime files) m "1.6" empty_store = (Return tt, st1)
   /\ forall l, action_of m <> Some (PyList l))
  /\ message_after m "1.6" = m
  /\ fst (@validate_payload (reference_runtime files) (message_after m "1.6") "1.6"
                            st1)
     = Return tt
  /\ (Return tt = Return tt ->
      @validate_payload (reference_runtime files) (message_after m "1.6") "1.6" st1
      = (Return tt, st1)).
Proof.
  intros files m st1.
  assert (Hcall : @validate_payload (reference_runtime files) m "1.6" empty_store
                  = (Return tt, st1)).
  { vm_compute. reflexivity. }
  assert (Hlist : forall l, action_of m <> Some (PyList l)).
  { intros l. discriminate. }
  split; [split; [exact Hcall | exact Hlist]|].
  exact (proj1 (@validate_payload_repeatable (reference_runtime files) m "1.6"
                  empty_store st1 (Return tt) Hcall)
               Hlist).
Defined.

(** A Response whose action is a list, as [unpack] returns it from the
    frame [[3, "1", {}, ["a"]]]: the first call of [validate_payload]
    extends the list and looks for a schema of that name; the second call,
    on the message as it then is, looks for another. *)
Example validate_payload_list_action :
  let text := "[3, " +:+ quoted "1" +:+ ", {}, [" +:+ quoted "a" +:+ "]]" in
  let m := ACallResult {| CallResult.unique_id := PyStr "1";
                          CallResult.payload := PyDict [];
                          CallResult.action := PyList [PyStr "a"] |} in
  let first := @validate_payload (reference_runtime []) m "1.6" empty_store in
  let second := @validate_payload (reference_runtime []) (message_after m "1.6")
                                  "1.6" (snd first) in
  @unpack (reference_runtime []) text = Return m
  /\ action_of (message_after m "1.6")
     = Some (PyList [PyStr "a"; PyStr "R"; PyStr "e"; PyStr "s"; PyStr "p";
                     PyStr "o"; PyStr "n"; PyStr "s"; PyStr "e"])
  /\ opened (snd second)
     = ["/site-packages/ocpp/v16/schemas/['a', 'R', 'e', 's', 'p', 'o', 'n', 's', 'e'].json";
        "/site-packages/ocpp/v16/schemas/['a', 'R', 'e', 's', 'p', 'o', 'n', 's', 'e', 'R', 'e', 's', 'p', 'o', 'n', 's', 'e'].json"].
Proof. vm_compute. repeat split; reflexivity. Qed.

(** X20, on the BootNotification response, which holds the action of its
    request in memory. *)
Lemma pack_unpack_pack_witness :
  let m := ACallResult
             {| CallResult.unique_id := PyStr "19223201";
                CallResult.payload := PyDict [("status", PyStr "Accepted")];
                CallResult.action := PyStr "BootNotification" |} in
  ((forall v : value,
       representable v = true ->
       exists text, PyJson.dumps v = Return text /\ PyJson.loads text = Return v)
   /\ forallb representable (wire_fields m) = true)
  /\ exists (text : string) (m' : message),
       @pack (reference_runtime []) m = Return text
       /\ @unpack (reference_runtime []) text = Return m'
       /\ class_of_message m' = class_of_message m
       /\ wire_fields m' = wire_fields m
       /\ @pack (reference_runtime []) m' = Return text.
Proof.
  intros m. split.
  - split; [exact loads_dumps | reflexivity].
  - apply (@pack_unpack_pack (reference_runtime []) loads_dumps m). reflexivity.
Defined.

(** The representations of a request and of the response to it. *)
Example repr_of_request_and_response :
  let call := {| Call.unique_id := PyStr "19223201";
                 Call.action := PyStr "Heartbeat";
                 Call.payload := PyDict [] |} in
  let call_result :=
    Call.create_call_result call
      (PyDict [("currentTime", PyStr "2013-02-01T20:53:32Z")]) in
  @repr_of_message (reference_runtime []) (ACall call)
  = "<Call - unique_id=19223201, action=Heartbeat, payload={}>"
  /\ @repr_of_message (reference_runtime []) (ACallResult call_result)
     = "<CallResult - unique_id=19223201, action=Heartbeat, payload={'currentTime': '2013-02-01T20:53:32Z'}>".
Proof. split; vm_compute; reflexivity. Qed.

(** X21, on two requests that have the same representation: the unique id
    is the int 5 in one and the str "5" in the other. *)
Lemma repr_shows_the_class_witness :
  let m := ACall {| Call.unique_id := PyInt 5;
                    Call.action := PyStr "Heartbeat";
                    Call.payload := PyDict [] |} in
  let m' := ACall {| Call.unique_id := PyStr "5";
                     Call.action := PyStr "Heartbeat";
                     Call.payload := PyDict [] |} in
  @repr_of_message (reference_runtime []) m = @repr_of_message (reference_runtime []) m'
  /\ class_of_message m = class_of_message m'.
Proof.
  intros m m'.
  assert (Hrepr : @repr_of_message (reference_runtime []) m
                  = @repr_of_message (reference_runtime []) m').
  { vm_compute. reflexivity. }
  split; [exact Hrepr|].
  exact (@repr_shows_the_class (reference_runtime []) m m' Hrepr).
Defined.
